(** * CuraQ MCP server: the tool-call dispatcher of [src/index.ts]

    A shallow embedding of the [CallToolRequestSchema] handler: the five
    tool cases, the request each one builds, and the text each one renders
    from the backend's answer.

    Strings are byte strings holding UTF-8, so a literal of the source and
    its concatenations read here as they do there.  A surrogate code unit
    that has no partner, which a JSON string can carry, is held as the
    three bytes that the scheme of UTF-8 gives its code point ([ED],
    [A0]..[BF], then one more byte). *)

From Stdlib Require Import ZArith QArith List String Ascii Bool Lia DecimalString.
Import ListNotations.
Local Open Scope string_scope.
Local Open Scope Z_scope.

Set Warnings "-register-all".

(** ** JavaScript values *)

(** A JS number.  [Int z] is a number whose value is the integer [z];
    [Frac q] a finite number that is not an integer.  Negative zero is
    [Int 0]: the handler cannot tell the two apart. *)
Inductive number : Type :=
| NaN
| PosInfinity
| NegInfinity
| Int (z : Z)
| Frac (q : Q).

(** The values a tool call or a JSON body can carry, and [undefined] for
    what is absent. *)
Inductive value : Type :=
| Undefined
| Null
| Bool (b : bool)
| Num (n : number)
| Str (s : string)
| Arr (items : list value)
| Obj (fields : list (string * value)).

Definition LF : string := String "010"%char EmptyString.

(** ToBoolean. *)
Definition truthy (v : value) : bool :=
  match v with
  | Undefined | Null => false
  | Bool b => b
  | Num NaN => false
  | Num (Int z) => negb (z =? 0)
  | Num (Frac q) => negb (Qeq_bool q 0)
  | Num _ => true
  | Str s => negb (s =? "")%string
  | Arr _ | Obj _ => true
  end.

(** [a || b]. *)
Definition or_else (a b : value) : value := if truthy a then a else b.

(** [v === "lit"] for a string literal. *)
Definition is_str (v : value) (lit : string) : bool :=
  match v with
  | Str s => (s =? lit)%string
  | _ => false
  end.

(** [sep]-separated concatenation, as Array.prototype.join does it once
    the elements are strings. *)
Fixpoint join (sep : string) (l : list string) : string :=
  match l with
  | [] => ""
  | [x] => x
  | x :: rest => x ++ sep ++ join sep rest
  end.

(** ** Exceptions *)

(** What the handler's [catch] can receive.  All are [Error] objects: a
    property read on [undefined] or [null]; a call of something that is
    not a function; a conversion to a primitive of an object that has
    none; [encodeURIComponent] on a surrogate without partner; and a
    rejection that comes from the host (a failed [fetch], a body that is
    not JSON) with the host's message. *)
Inductive exn : Type :=
| ReadOfNullish (base : value) (key : string)
| NotAFunction (callee : string)
| NotPrimitive (object : value)
| URIMalformed
| Rejected (message : string).

(** Steps that may throw. *)
Definition sum_bind {A B : Type} (x : exn + A) (f : A -> exn + B) : exn + B :=
  match x with
  | inl e => inl e
  | inr a => f a
  end.

Notation "'let*' x ':=' e 'in' k" := (sum_bind e (fun x => k))
  (at level 10, x name, e at level 100, k at level 200).

(** ** Property access *)

Fixpoint lookup (key : string) (fields : list (string * value)) : value :=
  match fields with
  | [] => Undefined
  | (k, v) :: rest => if (k =? key)%string then v else lookup key rest
  end.

(** [v.key] for the data keys the handler reads (none of them is a
    property of a prototype, so on anything but an object they read as
    [undefined]).  An object parsed from JSON has no repeated key. *)
Definition get (v : value) (key : string) : exn + value :=
  match v with
  | Undefined | Null => inl (ReadOfNullish v key)
  | Obj fields => inr (lookup key fields)
  | _ => inr Undefined
  end.

(** [key in v] for an object. *)
Definition has_key (key : string) (fields : list (string * value)) : bool :=
  existsb (fun kv => (fst kv =? key)%string) fields.

(** [v?.key]. *)
Definition opt_get (v : value) (key : string) : value :=
  match v with
  | Obj fields => lookup key fields
  | _ => Undefined
  end.

(** [v.length === 0]. *)
Definition length_is_zero (v : value) : exn + bool :=
  match v with
  | Undefined | Null => inl (ReadOfNullish v "length")
  | Arr items => inr (match items with [] => true | _ => false end)
  | Str s => inr (s =? "")%string
  | Obj fields =>
      inr (match lookup "length" fields with
           | Num (Int 0) => true
           | _ => false
           end)
  | _ => inr false
  end.

(** The receiver of [v.map(...)]: the items of an array; on anything else
    there is no function [map] to call. *)
Definition map_receiver (callee : string) (v : value) : exn + list value :=
  match v with
  | Undefined | Null => inl (ReadOfNullish v "map")
  | Arr items => inr items
  | _ => inl (NotAFunction callee)
  end.

(** ** encodeURIComponent *)

Definition hex_digit (n : N) : ascii :=
  ascii_of_N (if (n <? 10)%N then 48 + n else 55 + n)%N.

Definition uri_unreserved (c : ascii) : bool :=
  let n := N_of_ascii c in
  ((48 <=? n) && (n <=? 57) || (65 <=? n) && (n <=? 90) || (97 <=? n) && (n <=? 122))%N
  || existsb (Ascii.eqb c) ["-"; "_"; "."; "!"; "~"; "*"; "'"; "("; ")"]%char.

(** [%XX] for one octet. *)
Definition percent (octet : N) : string :=
  String "%" (String (hex_digit (octet / 16)) (String (hex_digit (octet mod 16)) "")).

(** The first byte of every surrogate, and the ranges of the second byte
    of a leading and of a trailing one. *)
Definition surrogate_byte (c : ascii) : bool := (N_of_ascii c =? 237)%N.

Definition lead_byte (c : ascii) : bool :=
  ((160 <=? N_of_ascii c) && (N_of_ascii c <=? 175))%N.

Definition trail_byte (c : ascii) : bool :=
  ((176 <=? N_of_ascii c) && (N_of_ascii c <=? 191))%N.

(** The four escaped octets of the code point that a leading surrogate
    (second and third byte [l1], [l2]) and a trailing one ([t1], [t2])
    make together. *)
Definition percent_pair (l1 l2 t1 t2 : ascii) : string :=
  let high := ((N_of_ascii l1 - 160) * 64 + N_of_ascii l2 mod 64)%N in
  let low := ((N_of_ascii t1 - 176) * 64 + N_of_ascii t2 mod 64)%N in
  let code_point := (65536 + high * 1024 + low)%N in
  percent (240 + code_point / 262144)
  ++ percent (128 + (code_point / 4096) mod 64)
  ++ percent (128 + (code_point / 64) mod 64)
  ++ percent (128 + code_point mod 64).

(** An unreserved character stays; every other character becomes the
    escaped octets of its UTF-8 encoding; a surrogate without partner is
    a URIError. *)
Fixpoint encodeURIComponent (s : string) : exn + string :=
  match s with
  | EmptyString => inr EmptyString
  | String c rest =>
      if uri_unreserved c then
        let* tail := encodeURIComponent rest in inr (String c tail)
      else
        match rest with
        | String l1 (String l2 after_lead) =>
            if surrogate_byte c && lead_byte l1 then
              match after_lead with
              | String c' (String t1 (String t2 after_pair)) =>
                  if surrogate_byte c' && trail_byte t1 then
                    let* tail := encodeURIComponent after_pair in
                    inr (percent_pair l1 l2 t1 t2 ++ tail)
                  else inl URIMalformed
              | _ => inl URIMalformed
              end
            else if surrogate_byte c && trail_byte l1 then inl URIMalformed
            else
              let* tail := encodeURIComponent rest in
              inr (percent (N_of_ascii c) ++ tail)
        | _ =>
            let* tail := encodeURIComponent rest in
            inr (percent (N_of_ascii c) ++ tail)
        end
  end.

(** ** HTTP *)

(** The arguments of one [fetch] call.  [body] holds the object that the
    source hands to [JSON.stringify]. *)
Record request : Type := {
  url : string;
  method : option string;
  headers : list (string * string);
  body : option value
}.

(** A response as the handler reads it: [status]; [body_text] for
    [await response.text()]; [body_json] for [await response.json()],
    which rejects when the body is not JSON.  [statusText] is never
    read. *)
Record response : Type := {
  status : Z;
  statusText : string;
  body_text : string;
  body_json : exn + value
}.

(** [response.ok]. *)
Definition ok (r : response) : bool := (200 <=? status r) && (status r <=? 299).

(** ** Programs that call [fetch] *)

Inductive prog (A : Type) : Type :=
| Ret (a : A)
| Throw (e : exn)
| Fetch (req : request) (k : exn + response -> prog A).

Arguments Ret {A} a.
Arguments Throw {A} e.
Arguments Fetch {A} req k.

Fixpoint bind {A B : Type} (p : prog A) (f : A -> prog B) : prog B :=
  match p with
  | Ret a => f a
  | Throw e => Throw e
  | Fetch req k => Fetch req (fun o => bind (k o) f)
  end.

Notation "x <- p ;; q" := (bind p (fun x => q))
  (at level 61, p at next level, right associativity).

(** [await fetch(url, init)]. *)
Definition fetch (req : request) : prog response :=
  Fetch req (fun o => match o with inl e => Throw e | inr r => Ret r end).

(** A step that may throw and calls nothing. *)
Definition lift {A : Type} (x : exn + A) : prog A :=
  match x with
  | inl e => Throw e
  | inr a => Ret a
  end.

(** [try { p } catch (error) { handler error }]. *)
Fixpoint try_catch {A : Type} (p : prog A) (handler : exn -> prog A) : prog A :=
  match p with
  | Ret a => Ret a
  | Throw e => handler e
  | Fetch req k => Fetch req (fun o => try_catch (k o) handler)
  end.

(** Running a program against a backend: the calls of [fetch], in order,
    and what the program comes to. *)
Fixpoint run {A : Type} (backend : request -> exn + response) (p : prog A)
  : list request * (exn + A) :=
  match p with
  | Ret a => ([], inr a)
  | Throw e => ([], inl e)
  | Fetch req k =>
      let (sent, out) := run backend (k (backend req)) in
      (req :: sent, out)
  end.

(** [f] over the items with their indices, stopping at the first throw. *)
Fixpoint map_indexed {A : Type} (f : value -> Z -> exn + A) (index : Z) (items : list value)
  : exn + list A :=
  match items with
  | [] => inr []
  | x :: rest =>
      match f x index with
      | inl e => inl e
      | inr y =>
          match map_indexed f (index + 1) rest with
          | inl e => inl e
          | inr ys => inr (y :: ys)
          end
      end
  end.

(** ** The result of a tool call *)

Record content_block : Type := { type : string; text : string }.
Record tool_result : Type := { content : list content_block }.

(** [{ content: [{ type: "text", text: s }] }]. *)
Definition text_result (s : string) : tool_result :=
  {| content := [ {| type := "text"; text := s |} ] |}.

(** ** What the engine supplies *)

(** StringToNumber; Number::toString for the numbers whose digits are not
    fixed here; the [message] of an error; and, for a primitive value [v],
    [new Date(v).toLocaleDateString("ja-JP")] and
    [new Date(v).toLocaleString("ja-JP")], which depend on the time zone
    and the locale data of the process. *)
Class Engine : Type := {
  StringToNumber : string -> number;
  NumberToString : number -> string;
  error_message : exn -> string;
  toLocaleDateString_jaJP : value -> string;
  toLocaleString_jaJP : value -> string
}.

(** ** The handler *)

Section Dispatcher.

(** The environment, read once when the process starts. *)
Variable CURAQ_API_URL : string.
Variable CURAQ_MCP_TOKEN : string.

Context {engine : Engine}.

(** Number::toString(10).  An integer of size up to 2^53 prints as its
    decimal digits; a larger one (in exponent form from 1e21 on) and a
    fraction print as the engine has it. *)
Definition number_to_string (n : number) : string :=
  match n with
  | NaN => "NaN"
  | PosInfinity => "Infinity"
  | NegInfinity => "-Infinity"
  | Int z =>
      if Z.abs z <=? 9007199254740992
      then NilZero.string_of_int (Z.to_int z)
      else NumberToString n
  | Frac _ => NumberToString n
  end.

(** ToString, as a template literal applies it.  An array prints as its
    elements joined by commas, [null] and [undefined] elements as nothing.
    A plain object prints as [[object Object]]; an object with a key
    [toString] of its own, whose value is no function, has no primitive
    value and the conversion throws. *)
Fixpoint to_string (v : value) : exn + string :=
  match v with
  | Undefined => inr "undefined"
  | Null => inr "null"
  | Bool true => inr "true"
  | Bool false => inr "false"
  | Num n => inr (number_to_string n)
  | Str s => inr s
  | Arr items =>
      let* strings :=
        (fix elements (l : list value) : exn + list string :=
           match l with
           | [] => inr []
           | x :: rest =>
               let* first := match x with
                             | Undefined | Null => inr ""
                             | _ => to_string x
                             end in
               let* others := elements rest in
               inr (first :: others)
           end) items in
      inr (join "," strings)
  | Obj fields =>
      if has_key "toString" fields then inl (NotPrimitive v)
      else inr "[object Object]"
  end.

(** What Array.prototype.join makes of one element. *)
Definition element_string (v : value) : exn + string :=
  match v with
  | Undefined | Null => inr ""
  | _ => to_string v
  end.

Fixpoint element_strings (items : list value) : exn + list string :=
  match items with
  | [] => inr []
  | x :: rest =>
      let* first := element_string x in
      let* others := element_strings rest in
      inr (first :: others)
  end.

(** [v.join(sep)]. *)
Definition call_join (callee : string) (v : value) (sep : string) : exn + string :=
  match v with
  | Undefined | Null => inl (ReadOfNullish v "join")
  | Arr items => let* strings := element_strings items in inr (join sep strings)
  | _ => inl (NotAFunction callee)
  end.

(** ToNumber. *)
Definition to_number (v : value) : exn + number :=
  match v with
  | Undefined => inr NaN
  | Null => inr (Int 0)
  | Bool true => inr (Int 1)
  | Bool false => inr (Int 0)
  | Num n => inr n
  | Str s => inr (StringToNumber s)
  | Arr _ => let* s := to_string v in inr (StringToNumber s)
  | Obj fields =>
      if has_key "toString" fields then inl (NotPrimitive v)
      else inr NaN
  end.

(** [Math.min(v, cap)] for an integer literal [cap]. *)
Definition Math_min (v : value) (cap : Z) : exn + number :=
  let* n := to_number v in
  inr (match n with
       | NaN => NaN
       | NegInfinity => NegInfinity
       | PosInfinity => Int cap
       | Int z => Int (Z.min z cap)
       | Frac q => if Qle_bool q (inject_Z cap) then Frac q else Int cap
       end).

(** The primitive value that [new Date(v)] works on. *)
Definition date_primitive (v : value) : exn + value :=
  match v with
  | Arr _ | Obj _ => let* s := to_string v in inr (Str s)
  | _ => inr v
  end.

(** [new Date(v).toLocaleDateString("ja-JP")]. *)
Definition toLocaleDateString (v : value) : exn + string :=
  let* primitive := date_primitive v in
  inr (toLocaleDateString_jaJP primitive).

(** [new Date(v).toLocaleString("ja-JP")]. *)
Definition toLocaleString (v : value) : exn + string :=
  let* primitive := date_primitive v in
  inr (toLocaleString_jaJP primitive).

Definition authorization : string * string :=
  ("Authorization", "Bearer " ++ CURAQ_MCP_TOKEN).

(** [`エラー (${response.status}): ${error}`]. *)
Definition error_text (response_status : Z) (error : string) : string :=
  "エラー (" ++ number_to_string (Int response_status) ++ "): " ++ error.

(** One entry of a listing: the callback given to [map] in [list_articles]
    and in [search_articles].  The template reads and converts its parts
    from left to right. *)
Definition article_entry (article : value) (index : Z) : exn + string :=
  let* title := get article "title" in
  let* title_text := to_string title in
  let* minutes := to_string (opt_get article "reading_time_minutes") in
  let* url_text := to_string (opt_get article "url") in
  let* tags := call_join "article.tags.join" (opt_get article "tags") ", " in
  let* id_text := to_string (opt_get article "id") in
  inr ("[" ++ number_to_string (Int (index + 1)) ++ "] " ++ title_text
       ++ " (" ++ minutes ++ "分)" ++ LF
       ++ "    " ++ url_text ++ LF
       ++ "    タグ: " ++ tags ++ LF
       ++ "    ID: " ++ id_text).

Definition list_articles (args : value) : prog tool_result :=
  limit <- lift (Math_min (or_else (opt_get args "limit") (Num (Int 20))) 50) ;;
  response <- fetch {| url := CURAQ_API_URL ++ "/api/v1/articles?limit=" ++ number_to_string limit;
                       method := None;
                       headers := [authorization];
                       body := None |} ;;
  if negb (ok response) then
    let error := body_text response in
    Ret (text_result (error_text (status response) error))
  else
    data <- lift (body_json response) ;;
    data_articles <- lift (get data "articles") ;;
    let articles := or_else data_articles (Arr []) in
    empty <- lift (length_is_zero articles) ;;
    if (empty : bool) then Ret (text_result "未読記事がありません。")
    else
      items <- lift (map_receiver "articles.map" articles) ;;
      articlesList <- lift (map_indexed article_entry 0 items) ;;
      Ret (text_result
             ("未読記事一覧（" ++ number_to_string (Int (Z.of_nat (List.length items))) ++ "件）" ++ LF
              ++ "詳細が必要な場合は get_article で記事IDを指定してください。" ++ LF ++ LF
              ++ join (LF ++ LF) articlesList)).

(** The endpoint of a search, chosen by [mode === "semantic"]. *)
Definition search_endpoint (mode : value) : string :=
  if is_str mode "semantic"
  then CURAQ_API_URL ++ "/api/v1/articles/semantic-search"
  else CURAQ_API_URL ++ "/api/v1/articles/search".

(** [encodeURIComponent(query)], which first converts its argument to a
    string. *)
Definition encoded (query : value) : exn + string :=
  let* s := to_string query in
  encodeURIComponent s.

(** The three arguments are read, and [Math.min] runs on the limit,
    before the query is checked. *)
Definition search_articles (args : value) : prog tool_result :=
  let query := opt_get args "query" in
  let mode := or_else (opt_get args "mode") (Str "semantic") in
  limit <- lift (Math_min (or_else (opt_get args "limit") (Num (Int 10))) 30) ;;
  if negb (truthy query) then
    Ret (text_result "エラー: 検索キーワードを指定してください")
  else
    let endpoint := search_endpoint mode in
    escaped <- lift (encoded query) ;;
    response <- fetch {| url := endpoint ++ "?q=" ++ escaped
                                  ++ "&limit=" ++ number_to_string limit;
                         method := None;
                         headers := [authorization];
                         body := None |} ;;
    if negb (ok response) then
      let error := body_text response in
      if (status response =? 503) && is_str mode "semantic" then
        Ret (text_result "セマンティック検索は現在利用できません。キーワード検索をお試しください。")
      else
        Ret (text_result (error_text (status response) error))
    else
      data <- lift (body_json response) ;;
      data_articles <- lift (get data "articles") ;;
      let searchResults := or_else data_articles (Arr []) in
      empty <- lift (length_is_zero searchResults) ;;
      if (empty : bool) then
        quoted <- lift (to_string query) ;;
        Ret (text_result
               (if is_str mode "semantic"
                then "「" ++ quoted ++ "」に関連する記事が見つかりませんでした。"
                else "「" ++ quoted ++ "」に一致する記事が見つかりませんでした。"))
      else
        items <- lift (map_receiver "searchResults.map" searchResults) ;;
        resultsList <- lift (map_indexed article_entry 0 items) ;;
        let modeLabel := if is_str mode "semantic" then "セマンティック検索" else "キーワード検索" in
        quoted <- lift (to_string query) ;;
        Ret (text_result
               (modeLabel ++ "結果：「" ++ quoted ++ "」（"
                ++ number_to_string (Int (Z.of_nat (List.length items))) ++ "件）" ++ LF
                ++ "詳細が必要な場合は get_article で記事IDを指定してください。" ++ LF ++ LF
                ++ join (LF ++ LF) resultsList)).

(** [article.status === "read" ? ... : "不明"]. *)
Definition status_label (article_status : value) : string :=
  if is_str article_status "read" then "既読"
  else if is_str article_status "unread" then "未読"
  else if is_str article_status "deferred" then "後回し"
  else "不明".

(** The callback given to [events.map] in [get_article]. *)
Definition event_line (e : value) (index : Z) : exn + string :=
  let* action := get e "action" in
  let* action_text := to_string action in
  let* time := toLocaleString (opt_get e "created_at") in
  inr ("- " ++ action_text ++ " (" ++ time ++ ")").

(** The line that opens the last section of an article's detail. *)
Definition events_header : string := "**イベント履歴**:" ++ LF.

(** The detail text of [get_article] up to the header of the event
    history; its parts are read and converted from top to bottom. *)
Definition article_detail (article : value) : exn + string :=
  let* title := get article "title" in
  let* title_text := to_string title in
  let* url_text := to_string (opt_get article "url") in
  let* minutes := to_string (opt_get article "reading_time_minutes") in
  let* tags := call_join "article.tags.join" (opt_get article "tags") ", " in
  let* content_type := to_string (opt_get article "content_type") in
  let created_at := opt_get article "created_at" in
  let* saved := if truthy created_at then toLocaleDateString created_at else inr "不明" in
  let* summary := to_string (opt_get article "summary") in
  let* id_text := to_string (opt_get article "id") in
  inr ("# " ++ title_text ++ LF
       ++ LF
       ++ "**URL**: " ++ url_text ++ LF
       ++ "**ステータス**: " ++ status_label (opt_get article "status") ++ LF
       ++ "**読了時間**: " ++ minutes ++ "分" ++ LF
       ++ "**タグ**: " ++ tags ++ LF
       ++ "**コンテンツタイプ**: " ++ content_type ++ LF
       ++ "**保存日**: " ++ saved ++ LF
       ++ LF
       ++ "**要約**:" ++ LF
       ++ summary ++ LF
       ++ LF
       ++ "**記事ID**: " ++ id_text ++ LF
       ++ LF).

(** [`記事が見つかりませんでした（ID: ${articleId}）`]. *)
Definition not_found_text (articleId : value) : exn + string :=
  let* id_text := to_string articleId in
  inr ("記事が見つかりませんでした（ID: " ++ id_text ++ "）").

Definition get_article (args : value) : prog tool_result :=
  let articleId := opt_get args "article_id" in
  if negb (truthy articleId) then
    Ret (text_result "エラー: 記事IDを指定してください")
  else
    id_text <- lift (to_string articleId) ;;
    response <- fetch {| url := CURAQ_API_URL ++ "/api/v1/articles/" ++ id_text;
                         method := None;
                         headers := [authorization];
                         body := None |} ;;
    if negb (ok response) then
      let error := body_text response in
      if status response =? 404 then
        not_found <- lift (not_found_text articleId) ;;
        Ret (text_result not_found)
      else if status response =? 403 then
        Ret (text_result "この記事へのアクセス権限がありません。")
      else
        Ret (text_result (error_text (status response) error))
    else
      data <- lift (body_json response) ;;
      article <- lift (get data "article") ;;
      let events := or_else (opt_get data "events") (Arr []) in
      detail <- lift (article_detail article) ;;
      items <- lift (map_receiver "events.map" events) ;;
      lines <- lift (map_indexed event_line 0 items) ;;
      Ret (text_result (detail ++ events_header ++ join LF lines)).

Definition update_article_status (args : value) : prog tool_result :=
  let articleId := opt_get args "article_id" in
  let action := opt_get args "action" in
  if negb (truthy articleId) || negb (truthy action) then
    Ret (text_result "エラー: 記事IDとアクションを指定してください")
  else if negb (is_str action "read") && negb (is_str action "delete") then
    Ret (text_result "エラー: アクションは 'read' または 'delete' のいずれかを指定してください")
  else
    id_text <- lift (to_string articleId) ;;
    let target :=
      if is_str action "read"
      then CURAQ_API_URL ++ "/api/v1/articles/" ++ id_text ++ "/read"
      else CURAQ_API_URL ++ "/api/v1/articles/" ++ id_text in
    let verb := if is_str action "read" then "POST" else "DELETE" in
    response <- fetch {| url := target;
                         method := Some verb;
                         headers := [authorization];
                         body := None |} ;;
    if negb (ok response) then
      let error := body_text response in
      if status response =? 404 then
        not_found <- lift (not_found_text articleId) ;;
        Ret (text_result not_found)
      else
        Ret (text_result (error_text (status response) error))
    else
      let message := if is_str action "read" then "記事を既読にマークしました" else "記事を削除しました" in
      confirmed_id <- lift (to_string articleId) ;;
      Ret (text_result (message ++ "（ID: " ++ confirmed_id ++ "）")).

(** [requestBody] of [save_article]: [{ url }], then [title] and
    [markdown] when they are truthy. *)
Definition save_request_body (article_url title markdown : value) : value :=
  Obj ([("url", article_url)]
       ++ (if truthy title then [("title", title)] else [])
       ++ (if truthy markdown then [("markdown", markdown)] else []))%list.

(** The canonical message of a 400 whose [error] code [save_article]
    knows. *)
Definition save_error_400 (code : value) : option string :=
  if is_str code "unread-limit" then
    Some "エラー: 未読記事が30件に達しています。既存の記事を読むか削除してから保存してください。"
  else if is_str code "limit-reached" then
    Some "エラー: 今月の記事保存上限に達しました。"
  else if is_str code "already-read" then
    Some "この記事は既に読了済みです。"
  else if is_str code "invalid-content" then
    Some "エラー: このコンテンツは保存できません。"
  else None.

(** [await response.json().catch(() => ({ error: "unknown" }))]. *)
Definition save_error_data (r : response) : value :=
  match body_json r with
  | inl _ => Obj [("error", Str "unknown")]
  | inr parsed => parsed
  end.

(** The fall-through of the error branch of [save_article]. *)
Definition save_error_generic (response_status : Z) (errorData : value) : exn + string :=
  let* message := get errorData "message" in
  let* detail := to_string (or_else (or_else message (opt_get errorData "error"))
                                    (Str "記事の保存に失敗しました")) in
  inr ("エラー (" ++ number_to_string (Int response_status) ++ "): " ++ detail).

(** The first line of a successful save, from [data.restored] and
    [data.message]. *)
Definition save_message (restored message : value) : string :=
  if truthy restored then "記事を再登録しました"
  else if is_str message "記事は既に保存されています"
  then "記事は既に保存されています"
  else "記事を保存しました".

Definition save_article (args : value) : prog tool_result :=
  let article_url := opt_get args "url" in
  let title := opt_get args "title" in
  let markdown := opt_get args "markdown" in
  if negb (truthy article_url) then
    Ret (text_result "エラー: URLを指定してください")
  else
    let requestBody := save_request_body article_url title markdown in
    response <- fetch {| url := CURAQ_API_URL ++ "/api/v1/articles";
                         method := Some "POST";
                         headers := [authorization; ("Content-Type", "application/json")];
                         body := Some requestBody |} ;;
    if negb (ok response) then
      let errorData := save_error_data response in
      if status response =? 400 then
        code <- lift (get errorData "error") ;;
        match save_error_400 code with
        | Some canonical => Ret (text_result canonical)
        | None =>
            generic <- lift (save_error_generic (status response) errorData) ;;
            Ret (text_result generic)
        end
      else
        generic <- lift (save_error_generic (status response) errorData) ;;
        Ret (text_result generic)
    else
      data <- lift (body_json response) ;;
      restored <- lift (get data "restored") ;;
      let message := save_message restored (opt_get data "message") in
      url_text <- lift (to_string article_url) ;;
      id_text <- lift (to_string (opt_get data "articleId")) ;;
      Ret (text_result (message ++ LF ++ LF ++ "URL: " ++ url_text ++ LF
                        ++ "記事ID: " ++ id_text)).

(** The [switch] on the tool's name. *)
Definition dispatch (name : string) (args : value) : prog tool_result :=
  if (name =? "list_articles")%string then list_articles args
  else if (name =? "search_articles")%string then search_articles args
  else if (name =? "get_article")%string then get_article args
  else if (name =? "update_article_status")%string then update_article_status args
  else if (name =? "save_article")%string then save_article args
  else Ret (text_result ("不明なツール: " ++ name)).

(** The handler registered for [CallToolRequestSchema]: the [switch]
    inside [try], and the [catch] that turns what was thrown into a
    text. *)
Definition CallTool (name : string) (args : value) : prog tool_result :=
  try_catch (dispatch name args)
    (fun error => Ret (text_result ("エラーが発生しました: " ++ error_message error))).

End Dispatcher.

Arguments dispatch : simpl never.
Arguments CallTool : simpl never.

(** ** What a run sends and what it comes to *)

Definition requests {A : Type} (backend : request -> exn + response) (p : prog A)
  : list request := fst (run backend p).

Definition outcome {A : Type} (backend : request -> exn + response) (p : prog A)
  : exn + A := snd (run backend p).

(** A program that calls [fetch] at most [n] times, whatever the answers. *)
Inductive at_most {A : Type} : nat -> prog A -> Prop :=
| at_most_Ret : forall n a, at_most n (Ret a)
| at_most_Throw : forall n e, at_most n (Throw e)
| at_most_Fetch : forall n req k,
    (forall o, at_most n (k o)) -> at_most (S n) (Fetch req k).

(** A program that calls nothing. *)
Definition quiet {A : Type} (p : prog A) : Prop := at_most 0 p.

(** A program that does not throw, whatever the answers. *)
Inductive safe {A : Type} : prog A -> Prop :=
| safe_Ret : forall a, safe (Ret a)
| safe_Fetch : forall req k, (forall o, safe (k o)) -> safe (Fetch req k).

(** ** A concrete environment *)

Module Demo.

(** The default backend, a token, and stand-ins for what the engine
    supplies; the messages are worded as V8 words them. *)
Definition api : string := "https://curaq.app".
Definition token : string := "secret".
Definition string_to_number (s : string) : number := NaN.
Definition number_string (n : number) : string := "1e+21".
Definition message_of (e : exn) : string :=
  match e with
  | ReadOfNullish Null key => "Cannot read properties of null (reading '" ++ key ++ "')"
  | ReadOfNullish _ key => "Cannot read properties of undefined (reading '" ++ key ++ "')"
  | NotAFunction callee => callee ++ " is not a function"
  | NotPrimitive _ => "Cannot convert object to primitive value"
  | URIMalformed => "URI malformed"
  | Rejected message => message
  end.
Definition date_of (v : value) : string :=
  match v with
  | Str s => s
  | _ => "Invalid Date"
  end.

Definition engine : Engine := {|
  StringToNumber := string_to_number;
  NumberToString := number_string;
  error_message := message_of;
  toLocaleDateString_jaJP := date_of;
  toLocaleString_jaJP := date_of
|}.

Definition handler : string -> value -> prog tool_result :=
  CallTool (engine := engine) api token.

(** A backend that cannot be reached. *)
Definition offline (req : request) : exn + response := inl (Rejected "fetch failed").

(** A backend that answers every request with [r]. *)
Definition answer (r : response) (req : request) : exn + response := inr r.

(** A response with a JSON body. *)
Definition json_response (code : Z) (raw : string) (parsed : value) : response :=
  {| status := code; statusText := ""; body_text := raw; body_json := inr parsed |}.

(** A response whose body is plain text. *)
Definition text_response (code : Z) (raw : string) : response :=
  {| status := code; statusText := ""; body_text := raw;
     body_json := inl (Rejected "Unexpected token") |}.

Definition article : value :=
  Obj [("id", Str "a1"); ("url", Str "https://example.com/post"); ("title", Str "Rocq");
       ("summary", Str "A proof assistant."); ("tags", Arr [Str "proof"; Str "logic"]);
       ("reading_time_minutes", Num (Int 7)); ("content_type", Str "article");
       ("status", Str "unread"); ("created_at", Str "2025-01-02")].

(** A listing of one article, and the detail of an article with two
    events. *)
Definition listing : response :=
  json_response 200 "" (Obj [("articles", Arr [article])]).

Definition detail_with_events : response :=
  json_response 200 ""
    (Obj [("article", article);
          ("events", Arr [Obj [("action", Str "saved"); ("created_at", Str "2025-01-02")];
                          Obj [("action", Str "read"); ("created_at", Str "2025-01-03")]])]).

(** An object that has no primitive value: [{ toString: 1 }]. *)
Definition no_primitive : value := Obj [("toString", Num (Int 1))].

(** A string that is one leading surrogate without partner, U+D800. *)
Definition lone_surrogate : string :=
  String (ascii_of_N 237) (String (ascii_of_N 160) (String (ascii_of_N 128) "")).

End Demo.

(** ** Calls that fail validation *)

(** [validation_failure name args message]: the call of tool [name] with
    [args] lacks a required argument, or names an action that is neither
    [read] nor [delete]; [message] is the text the tool answers with.  An
    argument is lacking when it is absent, and also when it is present
    with a falsy value ([null], the empty string, [0], [false]): the
    handler tests [!value]. *)
Inductive validation_failure : string -> value -> string -> Prop :=
| missing_query : forall args,
    truthy (opt_get args "query") = false ->
    validation_failure "search_articles" args "エラー: 検索キーワードを指定してください"
| missing_article_id : forall args,
    truthy (opt_get args "article_id") = false ->
    validation_failure "get_article" args "エラー: 記事IDを指定してください"
| missing_id_or_action : forall args,
    truthy (opt_get args "article_id") = false \/ truthy (opt_get args "action") = false ->
    validation_failure "update_article_status" args "エラー: 記事IDとアクションを指定してください"
| invalid_action : forall args,
    truthy (opt_get args "article_id") = true ->
    truthy (opt_get args "action") = true ->
    is_str (opt_get args "action") "read" = false ->
    is_str (opt_get args "action") "delete" = false ->
    validation_failure "update_article_status" args
      "エラー: アクションは 'read' または 'delete' のいずれかを指定してください"
| missing_url : forall args,
    truthy (opt_get args "url") = false ->
    validation_failure "save_article" args "エラー: URLを指定してください".

(** ** The tool registry *)

Module Property.
(** One entry of [properties] in an input schema. *)
Record t : Type := {
  type : string;
  enum : option (list string);
  description : string;
  default : option value
}.
End Property.

Module Input.
(** [inputSchema]. *)
Record t : Type := {
  type : string;
  properties : list (string * Property.t);
  required : option (list string)
}.
End Input.

Module Tool.
Record t : Type := {
  name : string;
  description : string;
  inputSchema : Input.t
}.
End Tool.

(** The five descriptors of [TOOLS], in the order of the source. *)
Definition tool_list_articles : Tool.t :=
  {| Tool.name := "list_articles";
     Tool.description :=
       "未読記事の一覧を優先度順に取得します。記事のタイトル、要約、タグ、読了時間などの情報を返します。";
     Tool.inputSchema :=
       {| Input.type := "object";
          Input.properties :=
            [ ("limit",
               {| Property.type := "number";
                  Property.enum := None;
                  Property.description := "取得する記事数の上限（デフォルト: 20、最大: 50）";
                  Property.default := Some (Num (Int 20)) |}) ];
          Input.required := None |} |}.

Definition tool_search_articles : Tool.t :=
  {| Tool.name := "search_articles";
     Tool.description :=
       "記事を検索します。キーワード検索またはAIセマンティック検索を選択できます。セマンティック検索は意味を理解して同義語や関連トピックも検出でき、自然言語の質問にも対応します。";
     Tool.inputSchema :=
       {| Input.type := "object";
          Input.properties :=
            [ ("query",
               {| Property.type := "string";
                  Property.enum := None;
                  Property.description := "検索キーワードまたは検索クエリ（自然言語での質問も可）";
                  Property.default := None |});
              ("mode",
               {| Property.type := "string";
                  Property.enum := Some ["keyword"; "semantic"];
                  Property.description :=
                    "検索モード（keyword: キーワード検索、semantic: AIセマンティック検索）";
                  Property.default := Some (Str "semantic") |});
              ("limit",
               {| Property.type := "number";
                  Property.enum := None;
                  Property.description := "取得する記事数の上限（デフォルト: 10、最大: 30）";
                  Property.default := Some (Num (Int 10)) |}) ];
          Input.required := Some ["query"] |} |}.

Definition tool_get_article : Tool.t :=
  {| Tool.name := "get_article";
     Tool.description := "記事IDを指定して特定の記事の詳細を取得します。";
     Tool.inputSchema :=
       {| Input.type := "object";
          Input.properties :=
            [ ("article_id",
               {| Property.type := "string";
                  Property.enum := None;
                  Property.description := "記事のID（UUID形式）";
                  Property.default := None |}) ];
          Input.required := Some ["article_id"] |} |}.

Definition tool_update_article_status : Tool.t :=
  {| Tool.name := "update_article_status";
     Tool.description := "記事のステータスを更新します。既読マークまたは削除ができます。";
     Tool.inputSchema :=
       {| Input.type := "object";
          Input.properties :=
            [ ("article_id",
               {| Property.type := "string";
                  Property.enum := None;
                  Property.description := "記事のID（UUID形式）";
                  Property.default := None |});
              ("action",
               {| Property.type := "string";
                  Property.enum := Some ["read"; "delete"];
                  Property.description :=
                    "実行するアクション（read: 既読にする、delete: 削除する）";
                  Property.default := None |}) ];
          Input.required := Some ["article_id"; "action"] |} |}.

Definition tool_save_article : Tool.t :=
  {| Tool.name := "save_article";
     Tool.description :=
       "新しい記事をCuraQに保存します。URLを指定すると、AIが自動的に記事を分析してタイトル、要約、タグを生成します。";
     Tool.inputSchema :=
       {| Input.type := "object";
          Input.properties :=
            [ ("url",
               {| Property.type := "string";
                  Property.enum := None;
                  Property.description := "保存する記事のURL（必須）";
                  Property.default := None |});
              ("title",
               {| Property.type := "string";
                  Property.enum := None;
                  Property.description := "記事のタイトル（オプション、省略時はAIが自動生成）";
                  Property.default := None |});
              ("markdown",
               {| Property.type := "string";
                  Property.enum := None;
                  Property.description :=
                    "記事のMarkdown本文（オプション、指定すると分析精度が向上）";
                  Property.default := None |}) ];
          Input.required := Some ["url"] |} |}.

Definition TOOLS : list Tool.t :=
  [ tool_list_articles; tool_search_articles; tool_get_article;
    tool_update_article_status; tool_save_article ].

(** The handler registered for [ListToolsRequestSchema]. *)
Record tools_result : Type := { tools : list Tool.t }.

Definition ListTools : tools_result := {| tools := TOOLS |}.

(** The names a client can discover. *)
Definition tool_names : list string := map Tool.name (tools ListTools).

(** The required keys of a tool, none when the schema has no [required]. *)
Definition required_keys (t : Tool.t) : list string :=
  match Input.required (Tool.inputSchema t) with
  | Some keys => keys
  | None => []
  end.

(** The properties of a tool that declare a default, with the default. *)
Definition declared_defaults (t : Tool.t) : list (string * value) :=
  flat_map (fun kp => match Property.default (snd kp) with
                      | Some d => [(fst kp, d)]
                      | None => []
                      end)
           (Input.properties (Tool.inputSchema t)).

(** ** Start of the process *)

(** The top of the module: the two environment variables are read;
    without a token the process writes three lines to stderr and exits
    with code 1. *)
Inductive startup : Type :=
| Exit (stderr : list string) (code : Z)
| Started (CURAQ_API_URL CURAQ_MCP_TOKEN : string).

(** [process.env.NAME || fallback]. *)
Definition env_or (variable : option string) (fallback : string) : string :=
  match variable with
  | Some s => if (s =? "")%string then fallback else s
  | None => fallback
  end.

Definition missing_token : startup :=
  Exit [ "Error: Missing required environment variable";
         "Required: CURAQ_MCP_TOKEN";
         LF ++ "Please generate a token at: https://curaq.app/settings/access-token" ] 1.

Definition load (env : string -> option string) : startup :=
  let CURAQ_API_URL := env_or (env "CURAQ_API_URL") "https://curaq.app" in
  let CURAQ_MCP_TOKEN := env "CURAQ_MCP_TOKEN" in
  match CURAQ_MCP_TOKEN with
  | Some token => if (token =? "")%string then missing_token else Started CURAQ_API_URL token
  | None => missing_token
  end.

(** ** Lemmas on values and programs *)

Example encodeURIComponent_ex :
  encodeURIComponent "a b&c/é" = inr "a%20b%26c%2F%C3%A9".
Proof. reflexivity. Qed.

Lemma append_assoc (a b c : string) : (a ++ b) ++ c = a ++ b ++ c.
Proof.
  induction a as [| ch a IH]; simpl; [reflexivity | now rewrite IH].
Qed.

Lemma get_opt_get v key x : get v key = inr x -> opt_get v key = x.
Proof.
  destruct v; simpl; intros H; inversion H; reflexivity.
Qed.

Lemma is_str_false v lit : v <> Str lit -> is_str v lit = false.
Proof.
  intros H. destruct v as [ | | b | n | s | items | fields ]; try reflexivity.
  simpl. destruct (String.eqb_spec s lit); [ | reflexivity ].
  subst s. now elim H.
Qed.

Lemma run_Fetch {A : Type} backend req (k : exn + response -> prog A) :
  run backend (Fetch req k) =
  (req :: requests backend (k (backend req)), outcome backend (k (backend req))).
Proof.
  unfold requests, outcome. simpl.
  destruct (run backend (k (backend req))); reflexivity.
Qed.

Lemma quiet_Ret {A : Type} (a : A) : quiet (Ret a).
Proof. constructor. Qed.

Lemma quiet_Throw {A : Type} e : quiet (@Throw A e).
Proof. constructor. Qed.

Lemma quiet_lift {A : Type} (x : exn + A) : quiet (lift x).
Proof. destruct x; constructor. Qed.

Lemma at_most_S {A : Type} n (p : prog A) : at_most n p -> at_most (S n) p.
Proof.
  induction 1; constructor; auto.
Qed.

Lemma quiet_at_most {A : Type} n (p : prog A) : quiet p -> at_most n p.
Proof.
  intros H. induction n as [| n IH]; [exact H | now apply at_most_S].
Qed.

Lemma at_most_bind {A B : Type} n (p : prog A) (f : A -> prog B) :
  at_most n p -> (forall a, quiet (f a)) -> at_most n (bind p f).
Proof.
  intros Hp Hf. induction Hp; simpl.
  - apply quiet_at_most, Hf.
  - constructor.
  - constructor. auto.
Qed.

Lemma at_most_try_catch {A : Type} n (p : prog A) handler :
  at_most n p -> (forall e, quiet (handler e)) -> at_most n (try_catch p handler).
Proof.
  intros Hp Hh. induction Hp; simpl.
  - constructor.
  - apply quiet_at_most, Hh.
  - constructor. auto.
Qed.

Lemma quiet_bind {A B : Type} (p : prog A) (f : A -> prog B) :
  quiet p -> (forall a, quiet (f a)) -> quiet (bind p f).
Proof. apply at_most_bind. Qed.

Lemma quiet_try_catch {A : Type} (p : prog A) handler :
  quiet p -> (forall e, quiet (handler e)) -> quiet (try_catch p handler).
Proof. apply at_most_try_catch. Qed.

Lemma requests_Fetch {A : Type} backend req (k : exn + response -> prog A) :
  requests backend (Fetch req k) = req :: requests backend (k (backend req)).
Proof. unfold requests at 1. now rewrite run_Fetch. Qed.

Lemma outcome_Fetch {A : Type} backend req (k : exn + response -> prog A) :
  outcome backend (Fetch req k) = outcome backend (k (backend req)).
Proof. unfold outcome at 1. now rewrite run_Fetch. Qed.

Lemma at_most_requests {A : Type} n (p : prog A) backend :
  at_most n p -> (List.length (requests backend p) <= n)%nat.
Proof.
  induction 1 as [n a | n e | n req k _ IH].
  - simpl. lia.
  - simpl. lia.
  - rewrite requests_Fetch. simpl. specialize (IH (backend req)). lia.
Qed.

Lemma quiet_requests {A : Type} (p : prog A) backend :
  quiet p -> requests backend p = [].
Proof.
  intros H. apply at_most_requests with (backend := backend) in H.
  destruct (requests backend p); [reflexivity | simpl in H; lia].
Qed.

Lemma requests_Fetch_quiet {A : Type} backend req (k : exn + response -> prog A) :
  (forall o, quiet (k o)) -> requests backend (Fetch req k) = [req].
Proof.
  intros H. rewrite requests_Fetch. now rewrite quiet_requests.
Qed.

Lemma quiet_outcome {A : Type} (p : prog A) backend backend' :
  quiet p -> outcome backend p = outcome backend' p.
Proof.
  intros H. inversion H; reflexivity.
Qed.

Lemma safe_try_catch {A : Type} (p : prog A) handler :
  (forall e, safe (handler e)) -> safe (try_catch p handler).
Proof.
  intros Hh. induction p; simpl; auto; constructor; auto.
Qed.

Lemma safe_outcome {A : Type} (p : prog A) backend :
  safe p -> exists a, outcome backend p = inr a.
Proof.
  induction 1.
  - exists a. reflexivity.
  - rewrite outcome_Fetch. apply H0.
Qed.

Create HintDb quiet.
#[export] Hint Resolve quiet_Ret quiet_Throw quiet_lift : quiet.

(** Closes a goal [quiet p] by following the shape of [p]. *)
Ltac quiet_tac :=
  repeat first
    [ solve [ auto with quiet ]
    | apply quiet_bind; [ | intros ]
    | apply quiet_try_catch; [ | intros ]
    | match goal with
      | |- quiet (if ?c then _ else _) => destruct c
      | |- quiet (match ?x with _ => _ end) => destruct x
      end ].

Lemma at_most_one_fetch {A : Type} req (f : response -> prog A) :
  (forall r, quiet (f r)) -> at_most 1 (bind (fetch req) f).
Proof.
  intros H. apply at_most_bind; [ | exact H ].
  constructor. intros [e | r]; constructor.
Qed.

Lemma at_most_lift_bind {A B : Type} n (x : exn + A) (f : A -> prog B) :
  (forall a, at_most n (f a)) -> at_most n (bind (lift x) f).
Proof.
  intros H. destruct x; simpl; [constructor | apply H].
Qed.

Lemma sum_bind_inr {A B : Type} (x : exn + A) (f : A -> exn + B) b :
  sum_bind x f = inr b -> exists a, x = inr a /\ f a = inr b.
Proof.
  destruct x as [e | a]; simpl; [discriminate | eauto].
Qed.

Section DispatcherFacts.

Variable CURAQ_API_URL : string.
Variable CURAQ_MCP_TOKEN : string.
Context {engine : Engine}.

Local Notation "'call'" := (CallTool CURAQ_API_URL CURAQ_MCP_TOKEN).

(** Rewrites with the hypotheses that say what a step of the run comes
    to, and computes the run up to the next step. *)
Ltac settle :=
  repeat first
    [ progress cbn [lift bind try_catch fetch negb sum_bind]
    | match goal with
      | H : ?x = inr _ |- context [?x] => rewrite H
      | H : ?x = inl _ |- context [?x] => rewrite H
      | H : ?x = true |- context [?x] => rewrite H
      | H : ?x = false |- context [?x] => rewrite H
      end ].

(** Opens the handler at the case of one tool. *)
Ltac open_tool :=
  unfold CallTool, dispatch; cbn [String.eqb Ascii.eqb Bool.eqb];
  first [ progress unfold list_articles | progress unfold search_articles
        | progress unfold get_article | progress unfold update_article_status
        | progress unfold save_article ];
  cbv zeta.

(** No tool call ends in a thrown error: the [catch] of the handler turns
    every one into a text. *)
Lemma CallTool_safe name args : safe (call name args).
Proof.
  unfold CallTool. apply safe_try_catch. intros e. constructor.
Qed.

(** A tool call sends at most one request. *)
Lemma CallTool_at_most_one name args : at_most 1 (call name args).
Proof.
  unfold CallTool. apply at_most_try_catch; [ | intros e; quiet_tac ].
  unfold dispatch.
  repeat match goal with
         | |- context [(name =? ?lit)%string] => destruct (name =? lit)%string
         end;
    [ unfold list_articles
    | unfold search_articles
    | unfold get_article
    | unfold update_article_status
    | unfold save_article
    | constructor ];
    cbv zeta;
    repeat first
      [ apply at_most_Ret
      | apply at_most_lift_bind; intros ?
      | match goal with
        | |- at_most 1 (if ?c then _ else _) => destruct c
        end ];
    apply at_most_one_fetch; intros r; quiet_tac.
Qed.

(** X2: a run of a tool call sends one request at most, whatever the name,
    the arguments and the answers of the backend. *)
Lemma CallTool_one_request backend name args :
  (List.length (requests backend (call name args)) <= 1)%nat.
Proof. apply at_most_requests, CallTool_at_most_one. Qed.

(** X1: every run of a tool call comes to a result, whatever the name, the
    arguments and the answers of the backend: a rejected [fetch], a body
    that is not JSON and a failed property read all end in the text of the
    handler's [catch], none in a thrown error. *)
Lemma CallTool_returns backend name args :
  exists result, outcome backend (call name args) = inr result.
Proof. apply safe_outcome, CallTool_safe. Qed.

(** A call that stops on a throw before [fetch] sends nothing and is
    answered with the text of the [catch]. *)
Lemma thrown_run (p : prog tool_result) backend e :
  p = Throw e ->
  run backend
    (try_catch p (fun error => Ret (text_result ("エラーが発生しました: " ++ error_message error))))
  = ([], inr (text_result ("エラーが発生しました: " ++ error_message e))).
Proof. intros ->. reflexivity. Qed.

(** *** [list_articles] *)

Lemma list_articles_requests backend args limit :
  Math_min (or_else (opt_get args "limit") (Num (Int 20))) 50 = inr limit ->
  requests backend (call "list_articles" args)
  = [ {| url := CURAQ_API_URL ++ "/api/v1/articles?limit=" ++ number_to_string limit;
         method := None;
         headers := [authorization CURAQ_MCP_TOKEN];
         body := None |} ].
Proof.
  intros Hl. open_tool. settle.
  apply requests_Fetch_quiet. intros o. quiet_tac.
Qed.

Lemma list_articles_thrown backend args e :
  Math_min (or_else (opt_get args "limit") (Num (Int 20))) 50 = inl e ->
  run backend (call "list_articles" args)
  = ([], inr (text_result ("エラーが発生しました: " ++ error_message e))).
Proof.
  intros Hl. open_tool. settle. reflexivity.
Qed.

Lemma list_articles_sent backend args :
  requests backend (call "list_articles" args) <> [] ->
  exists limit, Math_min (or_else (opt_get args "limit") (Num (Int 20))) 50 = inr limit.
Proof.
  intros H.
  destruct (Math_min (or_else (opt_get args "limit") (Num (Int 20))) 50) as [e | limit] eqn:Hl;
    [ | eauto ].
  elim H. unfold requests. now rewrite (list_articles_thrown backend args e Hl).
Qed.

(** *** [search_articles] *)

Lemma search_articles_requests backend args limit escaped :
  Math_min (or_else (opt_get args "limit") (Num (Int 10))) 30 = inr limit ->
  truthy (opt_get args "query") = true ->
  encoded (opt_get args "query") = inr escaped ->
  requests backend (call "search_articles" args)
  = [ {| url := search_endpoint CURAQ_API_URL (or_else (opt_get args "mode") (Str "semantic"))
                ++ "?q=" ++ escaped ++ "&limit=" ++ number_to_string limit;
         method := None;
         headers := [authorization CURAQ_MCP_TOKEN];
         body := None |} ].
Proof.
  intros Hl Hq He. open_tool. settle.
  apply requests_Fetch_quiet. intros o. quiet_tac.
Qed.

Lemma search_articles_sent backend args :
  requests backend (call "search_articles" args) <> [] ->
  exists limit escaped,
    Math_min (or_else (opt_get args "limit") (Num (Int 10))) 30 = inr limit
    /\ truthy (opt_get args "query") = true
    /\ encoded (opt_get args "query") = inr escaped.
Proof.
  intros H.
  destruct (Math_min (or_else (opt_get args "limit") (Num (Int 10))) 30) as [e | limit] eqn:Hl;
    [ elim H; open_tool; settle; reflexivity | ].
  destruct (truthy (opt_get args "query")) eqn:Hq;
    [ | elim H; open_tool; settle; reflexivity ].
  destruct (encoded (opt_get args "query")) as [e | escaped] eqn:He;
    [ elim H; open_tool; settle; reflexivity | ].
  eauto.
Qed.

(** Once the query has been escaped it converts to a string. *)
Lemma encoded_to_string query escaped :
  encoded query = inr escaped -> exists quoted, to_string query = inr quoted.
Proof.
  unfold encoded. intros H. apply sum_bind_inr in H. destruct H as [q [Hq _]]. eauto.
Qed.

(** *** [get_article] *)

Lemma get_article_requests backend args id_text :
  truthy (opt_get args "article_id") = true ->
  to_string (opt_get args "article_id") = inr id_text ->
  requests backend (call "get_article" args)
  = [ {| url := CURAQ_API_URL ++ "/api/v1/articles/" ++ id_text;
         method := None;
         headers := [authorization CURAQ_MCP_TOKEN];
         body := None |} ].
Proof.
  intros Hid Hs. open_tool. settle.
  apply requests_Fetch_quiet. intros o. quiet_tac.
Qed.

Lemma get_article_sent backend args :
  requests backend (call "get_article" args) <> [] ->
  truthy (opt_get args "article_id") = true
  /\ exists id_text, to_string (opt_get args "article_id") = inr id_text.
Proof.
  intros H.
  destruct (truthy (opt_get args "article_id")) eqn:Hid;
    [ | elim H; open_tool; settle; reflexivity ].
  destruct (to_string (opt_get args "article_id")) as [e | id_text] eqn:Hs;
    [ elim H; open_tool; settle; reflexivity | ].
  eauto.
Qed.

(** *** [update_article_status] *)

Lemma update_article_status_requests backend args id_text :
  truthy (opt_get args "article_id") = true ->
  truthy (opt_get args "action") = true ->
  is_str (opt_get args "action") "read" || is_str (opt_get args "action") "delete" = true ->
  to_string (opt_get args "article_id") = inr id_text ->
  requests backend (call "update_article_status" args)
  = [ {| url := if is_str (opt_get args "action") "read"
                then CURAQ_API_URL ++ "/api/v1/articles/" ++ id_text ++ "/read"
                else CURAQ_API_URL ++ "/api/v1/articles/" ++ id_text;
         method := Some (if is_str (opt_get args "action") "read" then "POST" else "DELETE");
         headers := [authorization CURAQ_MCP_TOKEN];
         body := None |} ].
Proof.
  intros Hid Hact Hvalid Hs. open_tool.
  rewrite Hid, Hact. cbn [negb orb].
  replace (negb (is_str (opt_get args "action") "read")
           && negb (is_str (opt_get args "action") "delete")) with false
    by (rewrite <- negb_orb, Hvalid; reflexivity).
  rewrite Hs. cbn [lift bind fetch try_catch].
  apply requests_Fetch_quiet. intros o. quiet_tac.
Qed.

(** *** [save_article] *)

Lemma save_article_requests backend args :
  truthy (opt_get args "url") = true ->
  requests backend (call "save_article" args)
  = [ {| url := CURAQ_API_URL ++ "/api/v1/articles";
         method := Some "POST";
         headers := [authorization CURAQ_MCP_TOKEN; ("Content-Type", "application/json")];
         body := Some (save_request_body (opt_get args "url") (opt_get args "title")
                         (opt_get args "markdown")) |} ].
Proof.
  intros Hu. open_tool. settle.
  apply requests_Fetch_quiet. intros o. quiet_tac.
Qed.

(** A call that fails validation returns at once, in a search once
    [Math.min] has run on the limit. *)
Lemma validation_failure_Ret name args message :
  validation_failure name args message ->
  (name = "search_articles" ->
   exists limit, Math_min (or_else (opt_get args "limit") (Num (Int 10))) 30 = inr limit) ->
  call name args = Ret (text_result message).
Proof.
  intros H Hlimit.
  destruct H as [args H | args H | args H | args Hid Hact Hread Hdel | args H].
  - destruct (Hlimit eq_refl) as [limit Hl]. open_tool. settle. reflexivity.
  - open_tool. settle. reflexivity.
  - open_tool. destruct H as [H | H]; rewrite H; cbn [negb orb]; [reflexivity | ].
    now rewrite orb_true_r.
  - open_tool. settle. reflexivity.
  - open_tool. settle. reflexivity.
Qed.

(** A call that fails validation sends nothing. *)
Lemma validation_failure_quiet backend name args message :
  validation_failure name args message ->
  requests backend (call name args) = [].
Proof.
  intros H.
  destruct (String.eqb_spec name "search_articles") as [-> | Hname].
  - destruct (Math_min (or_else (opt_get args "limit") (Num (Int 10))) 30) as [e | limit] eqn:Hl.
    + open_tool. settle. reflexivity.
    + now rewrite (validation_failure_Ret _ _ _ H (fun _ => ex_intro _ limit Hl)).
  - rewrite (validation_failure_Ret _ _ _ H); [reflexivity | ].
    intros E. now elim Hname.
Qed.

(** Steps a run up to the answer [r] of the backend. *)
Ltac answered Hbackend :=
  open_tool; settle; rewrite outcome_Fetch, Hbackend; settle.

(** ** The claims *)

(** C9: a call whose tool name is none of the five registered names is
    answered with the single text block [不明なツール: <name>]; no request
    is sent and nothing is thrown. *)
Theorem unknown_tool_answer backend name args :
  name <> "list_articles" ->
  name <> "search_articles" ->
  name <> "get_article" ->
  name <> "update_article_status" ->
  name <> "save_article" ->
  run backend (call name args)
  = ([], inr {| content := [ {| type := "text"; text := "不明なツール: " ++ name |} ] |}).
Proof.
  intros H1 H2 H3 H4 H5. unfold CallTool, dispatch.
  repeat match goal with
         | |- context [(name =? ?lit)%string] =>
             destruct (String.eqb_spec name lit); [contradiction | ]
         end.
  reflexivity.
Qed.

(** C3 (as the code has it): a call that lacks a required argument, or
    whose action is neither [read] nor [delete], sends no request and
    throws nothing, and it is answered with the validation text; in a
    search this needs that [Math.min], which runs on the limit before the
    query is checked, can convert the limit to a number. *)
Theorem validation_failure_answer backend name args message :
  validation_failure name args message ->
  requests backend (call name args) = []
  /\ (exists result, outcome backend (call name args) = inr result)
  /\ ((name = "search_articles" ->
       exists limit,
         Math_min (or_else (opt_get args "limit") (Num (Int 10))) 30 = inr limit) ->
      outcome backend (call name args) = inr (text_result message)).
Proof.
  intros H. split; [ | split ].
  - exact (validation_failure_quiet backend name args message H).
  - apply safe_outcome, CallTool_safe.
  - intros Hlimit. now rewrite (validation_failure_Ret name args message H Hlimit).
Qed.

(** C1 (as the code has it): a search whose limit and query can be
    converted sends one request.  It goes to the semantic-search endpoint
    when [mode] is omitted (or falsy) or is exactly [semantic]; it goes to
    the keyword endpoint for [keyword] and for every other value of
    [mode]. *)
Theorem search_endpoint_by_mode backend args limit escaped :
  Math_min (or_else (opt_get args "limit") (Num (Int 10))) 30 = inr limit ->
  truthy (opt_get args "query") = true ->
  encoded (opt_get args "query") = inr escaped ->
  (truthy (opt_get args "mode") = false \/ opt_get args "mode" = Str "semantic" ->
   map url (requests backend (call "search_articles" args))
   = [ CURAQ_API_URL ++ "/api/v1/articles/semantic-search"
       ++ "?q=" ++ escaped ++ "&limit=" ++ number_to_string limit ])
  /\
  (truthy (opt_get args "mode") = true -> opt_get args "mode" <> Str "semantic" ->
   map url (requests backend (call "search_articles" args))
   = [ CURAQ_API_URL ++ "/api/v1/articles/search"
       ++ "?q=" ++ escaped ++ "&limit=" ++ number_to_string limit ]).
Proof.
  intros Hl Hq He. rewrite (search_articles_requests backend args limit escaped Hl Hq He).
  cbn [map url]. unfold search_endpoint, or_else. split.
  - intros [Hm | Hm].
    + rewrite Hm. cbn [is_str String.eqb Ascii.eqb Bool.eqb]. now rewrite !append_assoc.
    + rewrite Hm. cbn [truthy is_str String.eqb Ascii.eqb Bool.eqb negb].
      now rewrite !append_assoc.
  - intros Hm Hne. rewrite Hm, (is_str_false _ _ Hne). now rewrite !append_assoc.
Qed.

(** C2 (as the code has it): [list_articles] sends its request to
    [/api/v1/articles?limit=L].  [L] is 20 when [limit] is absent or
    falsy; a number other than 0 is sent as given when it is at most 50,
    also when it is negative or a fraction, and as 50 when it is above 50;
    a truthy value that is not a number is not replaced by 20 but coerced
    to a number: [true] gives 1 and a plain object NaN, and for an object
    that has no primitive value the coercion throws and nothing is
    sent. *)
Theorem list_limit_parameter backend args :
  (truthy (opt_get args "limit") = false ->
   map url (requests backend (call "list_articles" args))
   = [ CURAQ_API_URL ++ "/api/v1/articles?limit=20" ])
  /\
  (forall n, opt_get args "limit" = Num (Int n) -> n <> 0 -> n <= 50 ->
   map url (requests backend (call "list_articles" args))
   = [ CURAQ_API_URL ++ "/api/v1/articles?limit=" ++ number_to_string (Int n) ])
  /\
  (forall q, opt_get args "limit" = Num (Frac q) -> ~ (q == 0)%Q -> (q <= 50)%Q ->
   map url (requests backend (call "list_articles" args))
   = [ CURAQ_API_URL ++ "/api/v1/articles?limit=" ++ number_to_string (Frac q) ])
  /\
  (forall n, opt_get args "limit" = Num (Int n) -> 50 < n ->
   map url (requests backend (call "list_articles" args))
   = [ CURAQ_API_URL ++ "/api/v1/articles?limit=50" ])
  /\
  (forall q, opt_get args "limit" = Num (Frac q) -> (50 < q)%Q ->
   map url (requests backend (call "list_articles" args))
   = [ CURAQ_API_URL ++ "/api/v1/articles?limit=50" ])
  /\
  (opt_get args "limit" = Bool true ->
   map url (requests backend (call "list_articles" args))
   = [ CURAQ_API_URL ++ "/api/v1/articles?limit=1" ])
  /\
  (forall fields, opt_get args "limit" = Obj fields -> has_key "toString" fields = false ->
   map url (requests backend (call "list_articles" args))
   = [ CURAQ_API_URL ++ "/api/v1/articles?limit=NaN" ])
  /\
  (forall fields, opt_get args "limit" = Obj fields -> has_key "toString" fields = true ->
   requests backend (call "list_articles" args) = []).
Proof.
  assert (Hsent : forall limit,
             Math_min (or_else (opt_get args "limit") (Num (Int 20))) 50 = inr limit ->
             map url (requests backend (call "list_articles" args))
             = [ CURAQ_API_URL ++ "/api/v1/articles?limit=" ++ number_to_string limit ]).
  { intros limit Hl. now rewrite (list_articles_requests backend args limit Hl). }
  assert (Hnonzero : forall q, ~ (q == 0)%Q -> Qeq_bool q 0 = false).
  { intros q Hq. destruct (Qeq_bool q 0) eqn:E; [ | reflexivity ].
    elim Hq. now apply Qeq_bool_iff. }
  repeat split.
  - intros H. apply (Hsent (Int 20)). unfold or_else. now rewrite H.
  - intros n H Hn Hle. apply (Hsent (Int n)). unfold or_else. rewrite H. cbn [truthy].
    destruct (Z.eqb_spec n 0); [contradiction | ]. cbn.
    now rewrite Z.min_l by lia.
  - intros q H Hq Hle. apply (Hsent (Frac q)). unfold or_else. rewrite H. cbn [truthy].
    rewrite (Hnonzero q Hq). cbn.
    replace (Qle_bool q (inject_Z 50)) with true; [reflexivity | ].
    symmetry. now apply Qle_bool_iff.
  - intros n H Hlt. apply (Hsent (Int 50)). unfold or_else. rewrite H. cbn [truthy].
    destruct (Z.eqb_spec n 0); [lia | ]. cbn.
    now rewrite Z.min_r by lia.
  - intros q H Hlt. apply (Hsent (Int 50)). unfold or_else. rewrite H. cbn [truthy].
    assert (Hq : ~ (q == 0)%Q).
    { intros E. rewrite E in Hlt. discriminate Hlt. }
    rewrite (Hnonzero q Hq). cbn.
    replace (Qle_bool q (inject_Z 50)) with false; [reflexivity | ].
    symmetry. destruct (Qle_bool q (inject_Z 50)) eqn:E; [ | reflexivity ].
    apply Qle_bool_iff in E. exfalso. exact (Qlt_not_le _ _ Hlt E).
  - intros H. apply (Hsent (Int 1)). unfold or_else. now rewrite H.
  - intros fields H Hk. apply (Hsent NaN). unfold or_else. rewrite H. cbn [truthy].
    unfold Math_min, to_number. now rewrite Hk.
  - intros fields H Hk. unfold requests.
    rewrite (list_articles_thrown backend args (NotPrimitive (Obj fields))); [reflexivity | ].
    unfold or_else. rewrite H. cbn [truthy]. unfold Math_min, to_number. now rewrite Hk.
Qed.

(** C10: [save_article] sends one request whose body is an object with a
    key [url]; a [title] or a [markdown] that is falsy (the empty string
    among them) leaves no key in it, so a call with an explicitly empty
    optional argument sends the same body as a call that omits it. *)
Theorem save_body_omits_falsy backend args args' :
  truthy (opt_get args "url") = true ->
  opt_get args' "url" = opt_get args "url" ->
  opt_get args' "title" = opt_get args "title"
  \/ (truthy (opt_get args "title") = false /\ opt_get args' "title" = Undefined) ->
  opt_get args' "markdown" = opt_get args "markdown"
  \/ (truthy (opt_get args "markdown") = false /\ opt_get args' "markdown" = Undefined) ->
  (exists fields,
      map body (requests backend (call "save_article" args)) = [ Some (Obj fields) ]
      /\ lookup "url" fields = opt_get args "url"
      /\ has_key "title" fields = truthy (opt_get args "title")
      /\ has_key "markdown" fields = truthy (opt_get args "markdown"))
  /\ map body (requests backend (call "save_article" args'))
     = map body (requests backend (call "save_article" args)).
Proof.
  intros Hu Hu' Ht Hm.
  rewrite (save_article_requests backend args Hu).
  rewrite (save_article_requests backend args') by now rewrite Hu'.
  cbn [map body]. unfold save_request_body. split.
  - eexists. split; [reflexivity | ].
    destruct (truthy (opt_get args "title")), (truthy (opt_get args "markdown"));
      repeat split; reflexivity.
  - rewrite Hu'.
    assert (Et : (if truthy (opt_get args' "title") then [("title", opt_get args' "title")] else [])
                 = (if truthy (opt_get args "title") then [("title", opt_get args "title")] else [])).
    { destruct Ht as [-> | [Hf ->]]; [reflexivity | now rewrite Hf]. }
    assert (Em : (if truthy (opt_get args' "markdown")
                  then [("markdown", opt_get args' "markdown")] else [])
                 = (if truthy (opt_get args "markdown")
                    then [("markdown", opt_get args "markdown")] else [])).
    { destruct Hm as [-> | [Hf ->]]; [reflexivity | now rewrite Hf]. }
    now rewrite Et, Em.
Qed.



(** C8: the answer of [get_article] is a function of the article id, the
    status and the body: two calls with the same [article_id] whose
    responses have the same status and the same body come to the same
    result, whatever else the calls and the responses carry. *)
Theorem get_article_deterministic backend backend' args args' r r' :
  opt_get args "article_id" = opt_get args' "article_id" ->
  (forall req, backend req = inr r) ->
  (forall req, backend' req = inr r') ->
  status r = status r' ->
  body_text r = body_text r' ->
  body_json r = body_json r' ->
  outcome backend (call "get_article" args) = outcome backend' (call "get_article" args').
Proof.
  intros Hid Hb Hb' Hs Ht Hj.
  unfold CallTool, dispatch; simpl. unfold get_article. rewrite <- Hid.
  destruct (truthy (opt_get args "article_id")); cbn [negb bind fetch try_catch];
    [ | reflexivity ].
  destruct (to_string (opt_get args "article_id")) as [e | id_text];
    cbn [lift bind fetch try_catch]; [reflexivity | ].
  rewrite !outcome_Fetch, Hb, Hb'. cbn [bind try_catch].
  unfold ok. rewrite <- Hs, <- Ht, <- Hj.
  apply quiet_outcome. quiet_tac.
Qed.

(** C4 (as the code has it): when the backend declines a save, a body
    that is not JSON counts as [{ error: unknown }]; for a body that is
    not [null], a 400 with the code [unread-limit], [limit-reached],
    [already-read] or [invalid-content] is answered with the text of that
    code, and any other code at 400, and any other status outside
    200..299, with the generic text: the status, then the [message] of the
    body, else its [error], else a fixed sentence, once that converts to a
    string; for the body [null] the read of the code or of the message
    throws and the answer is the text of the [catch]. *)
Theorem save_declined_answer backend args r :
  truthy (opt_get args "url") = true ->
  (forall req, backend req = inr r) ->
  ok r = false ->
  (forall e, body_json r = inl e ->
   outcome backend (call "save_article" args)
   = inr (text_result ("エラー (" ++ number_to_string (Int (status r)) ++ "): unknown")))
  /\
  (forall errorData, body_json r = inr errorData ->
   errorData <> Null -> errorData <> Undefined ->
   (status r = 400 -> opt_get errorData "error" = Str "unread-limit" ->
    outcome backend (call "save_article" args)
    = inr (text_result
             "エラー: 未読記事が30件に達しています。既存の記事を読むか削除してから保存してください。"))
   /\
   (status r = 400 -> opt_get errorData "error" = Str "limit-reached" ->
    outcome backend (call "save_article" args)
    = inr (text_result "エラー: 今月の記事保存上限に達しました。"))
   /\
   (status r = 400 -> opt_get errorData "error" = Str "already-read" ->
    outcome backend (call "save_article" args)
    = inr (text_result "この記事は既に読了済みです。"))
   /\
   (status r = 400 -> opt_get errorData "error" = Str "invalid-content" ->
    outcome backend (call "save_article" args)
    = inr (text_result "エラー: このコンテンツは保存できません。"))
   /\
   (forall detail,
       status r <> 400
       \/ (opt_get errorData "error" <> Str "unread-limit"
           /\ opt_get errorData "error" <> Str "limit-reached"
           /\ opt_get errorData "error" <> Str "already-read"
           /\ opt_get errorData "error" <> Str "invalid-content") ->
       to_string (or_else (or_else (opt_get errorData "message") (opt_get errorData "error"))
                          (Str "記事の保存に失敗しました")) = inr detail ->
       outcome backend (call "save_article" args)
       = inr (text_result
                ("エラー (" ++ number_to_string (Int (status r)) ++ "): " ++ detail))))
  /\
  (body_json r = inr Null ->
   outcome backend (call "save_article" args)
   = inr (text_result
            ("エラーが発生しました: "
             ++ error_message
                  (ReadOfNullish Null (if status r =? 400 then "error" else "message"))))).
Proof.
  intros Hu Hb Hok. split; [ | split ].
  - intros e Hj. answered Hb. unfold save_error_data, save_error_generic. rewrite Hj.
    destruct (status r =? 400); reflexivity.
  - intros errorData Hj Hnull Hundef.
    assert (Hget : forall key, get errorData key = inr (opt_get errorData key)).
    { intros key. destruct errorData; try reflexivity; [now elim Hundef | now elim Hnull]. }
    assert (Hdata : save_error_data r = errorData) by (unfold save_error_data; now rewrite Hj).
    split; [ | split; [ | split; [ | split ] ] ].
    1-4: intros Hs Hc; answered Hb; rewrite Hs, Hdata; cbn [Z.eqb Pos.eqb];
         rewrite Hget, Hc; reflexivity.
    intros detail Hcase Hd.
    assert (Hgen : save_error_generic (status r) errorData
                   = inr ("エラー (" ++ number_to_string (Int (status r)) ++ "): " ++ detail)).
    { unfold save_error_generic. rewrite Hget. cbn [sum_bind]. now rewrite Hd. }
    answered Hb. rewrite Hdata.
    destruct Hcase as [Hs | (H1 & H2 & H3 & H4)].
    + destruct (Z.eqb_spec (status r) 400); [contradiction | ].
      rewrite Hgen. reflexivity.
    + assert (Hnone : save_error_400 (opt_get errorData "error") = None).
      { unfold save_error_400. now rewrite !is_str_false. }
      destruct (status r =? 400).
      * rewrite Hget. cbn [lift bind try_catch]. rewrite Hnone, Hgen. reflexivity.
      * rewrite Hgen. reflexivity.
  - intros Hj. answered Hb. unfold save_error_data, save_error_generic. rewrite Hj.
    destruct (status r =? 400); reflexivity.
Qed.

(** C5 (as the code has it): a save that succeeds with a body that is
    not [null], for a [url] and an [articleId] that convert to strings, is
    answered with a first line chosen in this order: the re-registered
    sentence when [restored] is true, whatever [message] holds; else
    [message] itself when it is the already-saved sentence; else the saved
    sentence.  The submitted URL and the returned [articleId] follow in
    all three cases. *)
Theorem save_success_answer backend args r data url_text id_text :
  truthy (opt_get args "url") = true ->
  to_string (opt_get args "url") = inr url_text ->
  (forall req, backend req = inr r) ->
  ok r = true ->
  body_json r = inr data ->
  data <> Null -> data <> Undefined ->
  to_string (opt_get data "articleId") = inr id_text ->
  (opt_get data "restored" = Bool true ->
   outcome backend (call "save_article" args)
   = inr (text_result
            ("記事を再登録しました" ++ LF ++ LF
             ++ "URL: " ++ url_text ++ LF
             ++ "記事ID: " ++ id_text)))
  /\
  (truthy (opt_get data "restored") = false ->
   opt_get data "message" = Str "記事は既に保存されています" ->
   outcome backend (call "save_article" args)
   = inr (text_result
            ("記事は既に保存されています" ++ LF ++ LF
             ++ "URL: " ++ url_text ++ LF
             ++ "記事ID: " ++ id_text)))
  /\
  (truthy (opt_get data "restored") = false ->
   opt_get data "message" <> Str "記事は既に保存されています" ->
   outcome backend (call "save_article" args)
   = inr (text_result
            ("記事を保存しました" ++ LF ++ LF
             ++ "URL: " ++ url_text ++ LF
             ++ "記事ID: " ++ id_text))).
Proof.
  intros Hu Hurl Hb Hok Hj Hnull Hundef Hid.
  assert (Hget : get data "restored" = inr (opt_get data "restored")).
  { destruct data; try reflexivity; [now elim Hundef | now elim Hnull]. }
  split; [ | split ].
  - intros Hr. answered Hb. unfold save_message. rewrite Hr. reflexivity.
  - intros Hf Hm. answered Hb. unfold save_message. rewrite Hf, Hm. reflexivity.
  - intros Hf Hm. answered Hb. unfold save_message.
    rewrite Hf, (is_str_false _ _ Hm). reflexivity.
Qed.

(** ** Further facts on the handler *)

(** Splits a goal on what the steps before [fetch] come to. *)
Ltac before_fetch :=
  repeat match goal with
         | |- context [try_catch (bind (lift ?x) _) _] => destruct x; cbn [lift bind]
         | |- context [try_catch (if ?c then _ else _) _] => destruct c
         end.

(** Opens the handler at every case of the [switch]. *)
Ltac every_tool name :=
  unfold CallTool, dispatch;
  repeat match goal with
         | |- context [(name =? ?lit)%string] => destruct (name =? lit)%string
         end;
  [ unfold list_articles
  | unfold search_articles
  | unfold get_article
  | unfold update_article_status
  | unfold save_article
  | ];
  cbv zeta.

(** X6: the request of an [update_article_status] that passes validation
    and whose [article_id] converts to the string [id_text]: [read] is a
    POST to the article's [/read], [delete] a DELETE of the article; both
    carry the token and no body. *)
Theorem update_request_by_action backend args id_text :
  truthy (opt_get args "article_id") = true ->
  to_string (opt_get args "article_id") = inr id_text ->
  (opt_get args "action" = Str "read" ->
   requests backend (call "update_article_status" args)
   = [ {| url := CURAQ_API_URL ++ "/api/v1/articles/" ++ id_text ++ "/read";
          method := Some "POST";
          headers := [("Authorization", "Bearer " ++ CURAQ_MCP_TOKEN)];
          body := None |} ])
  /\
  (opt_get args "action" = Str "delete" ->
   requests backend (call "update_article_status" args)
   = [ {| url := CURAQ_API_URL ++ "/api/v1/articles/" ++ id_text;
          method := Some "DELETE";
          headers := [("Authorization", "Bearer " ++ CURAQ_MCP_TOKEN)];
          body := None |} ]).
Proof.
  intros Hid Hs.
  split; intros Ha; rewrite (update_article_status_requests backend args id_text);
    rewrite ?Ha; try reflexivity; assumption.
Qed.

(** X3: every request a tool call sends carries the bearer token in its
    [Authorization] header and goes to a path under [/api/v1/articles] of
    the configured backend. *)
Theorem requests_carry_token backend name args req :
  In req (requests backend (call name args)) ->
  In ("Authorization", "Bearer " ++ CURAQ_MCP_TOKEN) (headers req)
  /\ exists rest, url req = CURAQ_API_URL ++ "/api/v1/articles" ++ rest.
Proof.
  every_tool name; before_fetch; try (intros []);
    cbn [bind fetch try_catch];
    (rewrite requests_Fetch_quiet by (intros o; quiet_tac));
    intros [<- | []]; cbn [url headers]; (split; [left; reflexivity | ]).
  - eexists ("?limit=" ++ _). reflexivity.
  - unfold search_endpoint.
    destruct (is_str _ "semantic"); rewrite append_assoc;
      [ eexists ("/semantic-search" ++ _) | eexists ("/search" ++ _) ]; reflexivity.
  - eexists ("/" ++ _). reflexivity.
  - destruct (is_str _ "read"); eexists ("/" ++ _); reflexivity.
  - exists "". reflexivity.
Qed.

(** X4: when [fetch] rejects, a call that reached the backend is answered
    with the text of the handler's [catch], which carries the message of
    the rejection. *)
Theorem rejected_fetch_answer backend name args e :
  (forall req, backend req = inl e) ->
  requests backend (call name args) <> [] ->
  outcome backend (call name args)
  = inr (text_result ("エラーが発生しました: " ++ error_message e)).
Proof.
  intros Hb.
  every_tool name; before_fetch; try (intros H; now elim H);
    intros _; cbn [bind fetch try_catch];
    rewrite outcome_Fetch, Hb; reflexivity.
Qed.

(** X5: for a registered tool, a call that fails validation sends no
    request, and a call that sends no request has failed validation or
    has thrown before [fetch], and is then answered with the text of the
    [catch]. *)
Theorem registered_call_sends_unless_invalid backend name args :
  In name tool_names ->
  (forall message, validation_failure name args message ->
                   requests backend (call name args) = [])
  /\
  (requests backend (call name args) = [] ->
   (exists message, validation_failure name args message)
   \/ exists e, outcome backend (call name args)
                = inr (text_result ("エラーが発生しました: " ++ error_message e))).
Proof.
  intros Hin. split; [ intros message; apply validation_failure_quiet | ].
  simpl in Hin. destruct Hin as [<- | [<- | [<- | [<- | [<- | []]]]]].
  - destruct (Math_min (or_else (opt_get args "limit") (Num (Int 20))) 50) as [e | limit] eqn:Hl.
    + intros _. right. exists e. unfold outcome. now rewrite (list_articles_thrown backend args e Hl).
    + rewrite (list_articles_requests backend args limit Hl). discriminate.
  - destruct (truthy (opt_get args "query")) eqn:Hq;
      [ | intros _; left; eexists; now apply missing_query ].
    destruct (Math_min (or_else (opt_get args "limit") (Num (Int 10))) 30) as [e | limit] eqn:Hl;
      [ intros _; right; exists e; open_tool; settle; reflexivity | ].
    destruct (encoded (opt_get args "query")) as [e | escaped] eqn:He;
      [ intros _; right; exists e; open_tool; settle; reflexivity | ].
    rewrite (search_articles_requests backend args limit escaped Hl Hq He). discriminate.
  - destruct (truthy (opt_get args "article_id")) eqn:Hid;
      [ | intros _; left; eexists; now apply missing_article_id ].
    destruct (to_string (opt_get args "article_id")) as [e | id_text] eqn:Hs;
      [ intros _; right; exists e; open_tool; settle; reflexivity | ].
    rewrite (get_article_requests backend args id_text Hid Hs). discriminate.
  - destruct (truthy (opt_get args "article_id")) eqn:Hid;
      [ | intros _; left; eexists; apply missing_id_or_action; now left ].
    destruct (truthy (opt_get args "action")) eqn:Hact;
      [ | intros _; left; eexists; apply missing_id_or_action; now right ].
    destruct (is_str (opt_get args "action") "read"
              || is_str (opt_get args "action") "delete") eqn:Hvalid.
    + destruct (to_string (opt_get args "article_id")) as [e | id_text] eqn:Hs.
      * intros _. right. exists e. open_tool. rewrite Hid, Hact. cbn [negb orb].
        rewrite <- negb_orb, Hvalid. settle. reflexivity.
      * rewrite (update_article_status_requests backend args id_text Hid Hact Hvalid Hs).
        discriminate.
    + apply orb_false_iff in Hvalid. destruct Hvalid as [Hread Hdel].
      intros _. left. eexists. now apply invalid_action.
  - destruct (truthy (opt_get args "url")) eqn:Hu;
      [ | intros _; left; eexists; now apply missing_url ].
    rewrite (save_article_requests backend args Hu). discriminate.
Qed.

(** A callback that maps item to result, pair by pair, maps the list. *)
Lemma map_indexed_Forall2 {A : Type} (f : value -> Z -> exn + A) items results :
  Forall2 (fun x y => forall i, f x i = inr y) items results ->
  forall index, map_indexed f index items = inr results.
Proof.
  induction 1 as [| x y items results Hxy _ IH]; intros index; simpl; [reflexivity | ].
  now rewrite Hxy, IH.
Qed.

(** What [map_indexed] returns has one element per item, and the element
    at position [i] is what the callback makes of item [i] and index
    [index + i]. *)
Lemma map_indexed_nth {A : Type} (f : value -> Z -> exn + A) items :
  forall index results,
    map_indexed f index items = inr results ->
    List.length results = List.length items
    /\ forall i x, nth_error items i = Some x ->
                   exists y, nth_error results i = Some y /\ f x (index + Z.of_nat i) = inr y.
Proof.
  induction items as [| x rest IH]; intros index results H; simpl in H.
  - inversion H. split; [reflexivity | ]. intros [| i] y Hy; discriminate Hy.
  - destruct (f x index) as [e | y] eqn:Hx; [discriminate H | ].
    destruct (map_indexed f (index + 1) rest) as [e | ys] eqn:Hrest; [discriminate H | ].
    inversion H. subst results. destruct (IH _ _ Hrest) as [Hlen Hnth].
    split; [simpl; now rewrite Hlen | ].
    intros [| i] z Hz; simpl in Hz.
    + inversion Hz. subst z. exists y. split; [reflexivity | ].
      now rewrite Z.add_0_r.
    + destruct (Hnth i z Hz) as [w [Hw Hf]]. exists w. split; [exact Hw | ].
      rewrite <- Hf. f_equal. lia.
Qed.

(** The first item on which the callback throws ends the map with that
    throw. *)
Lemma map_indexed_throw {A : Type} (f : value -> Z -> exn + A) before x after e :
  (forall y, In y before -> forall i, exists z, f y i = inr z) ->
  (forall i, f x i = inl e) ->
  forall index, map_indexed f index (before ++ x :: after) = inl e.
Proof.
  induction before as [| y rest IH]; intros Hok Hx index; simpl.
  - now rewrite Hx.
  - destruct (Hok y (or_introl eq_refl) index) as [z ->].
    rewrite IH; [reflexivity | | exact Hx].
    intros w Hw. apply Hok. now right.
Qed.

(** X7: once [list_articles] has reached the backend, it answers a
    response outside 200..299 with the status and the body text, and a 2xx
    whose [articles] is absent, falsy or an empty array with the
    no-unread-articles sentence. *)
Theorem list_articles_declined_or_empty backend args r :
  requests backend (call "list_articles" args) <> [] ->
  (forall req, backend req = inr r) ->
  (ok r = false ->
   outcome backend (call "list_articles" args)
   = inr (text_result
            ("エラー (" ++ number_to_string (Int (status r)) ++ "): " ++ body_text r)))
  /\
  (forall data articles,
      ok r = true ->
      body_json r = inr data ->
      get data "articles" = inr articles ->
      truthy articles = false \/ articles = Arr [] ->
      outcome backend (call "list_articles" args)
      = inr (text_result "未読記事がありません。")).
Proof.
  intros Hsent Hb. destruct (list_articles_sent backend args Hsent) as [limit Hl]. split.
  - intros Hok. answered Hb. reflexivity.
  - intros data articles Hok Hj Ha He. answered Hb.
    unfold or_else. destruct He as [He | He]; rewrite He; reflexivity.
Qed.

(** X8: when [list_articles] has reached the backend and every article of
    a non-empty [articles] array renders, the answer is a header with the
    number of articles and the entries, one per article, in the order of
    the response; entry [i] (from 0) starts with the number [i + 1] in
    brackets and the title. *)
Theorem list_articles_entries backend args r data items entries :
  requests backend (call "list_articles" args) <> [] ->
  (forall req, backend req = inr r) ->
  ok r = true ->
  body_json r = inr data ->
  get data "articles" = inr (Arr items) ->
  items <> [] ->
  map_indexed article_entry 0 items = inr entries ->
  outcome backend (call "list_articles" args)
  = inr (text_result
           ("未読記事一覧（" ++ number_to_string (Int (Z.of_nat (List.length items))) ++ "件）"
            ++ LF ++ "詳細が必要な場合は get_article で記事IDを指定してください。"
            ++ LF ++ LF ++ join (LF ++ LF) entries))
  /\ List.length entries = List.length items
  /\ forall i article,
       nth_error items i = Some article ->
       exists title rest,
         to_string (opt_get article "title") = inr title
         /\ nth_error entries i
            = Some ("[" ++ number_to_string (Int (Z.of_nat i + 1)) ++ "] " ++ title ++ rest).
Proof.
  intros Hsent Hb Hok Hj Ha Hne Hmap.
  destruct (list_articles_sent backend args Hsent) as [limit Hl].
  destruct (map_indexed_nth _ _ _ _ Hmap) as [Hlen Hnth].
  split; [ | split; [exact Hlen | ] ].
  - answered Hb. unfold or_else. cbn [truthy].
    destruct items as [| x rest]; [now elim Hne | ].
    cbn [length_is_zero lift bind try_catch map_receiver]. settle. reflexivity.
  - intros i article Hi. destruct (Hnth i article Hi) as [y [Hy Hf]].
    unfold article_entry in Hf.
    apply sum_bind_inr in Hf. destruct Hf as [title_value [Hget Hf]].
    apply sum_bind_inr in Hf. destruct Hf as [title [Htitle Hf]].
    apply sum_bind_inr in Hf. destruct Hf as [minutes [_ Hf]].
    apply sum_bind_inr in Hf. destruct Hf as [url_text [_ Hf]].
    apply sum_bind_inr in Hf. destruct Hf as [tags [_ Hf]].
    apply sum_bind_inr in Hf. destruct Hf as [id_text [_ Hf]].
    injection Hf as Hf. subst y.
    exists title. eexists. split.
    + now rewrite (get_opt_get _ _ _ Hget).
    + rewrite Hy. reflexivity.
Qed.

(** X23: one article without [tags] spoils a whole listing: when the
    articles before it render and its own title, reading time and URL
    convert to strings, the answer is the text of the [catch] with the
    message of the failed read of [join] on [undefined], and none of the
    articles is listed. *)
Theorem list_articles_missing_tags backend args r data before fields after title minutes link :
  requests backend (call "list_articles" args) <> [] ->
  (forall req, backend req = inr r) ->
  ok r = true ->
  body_json r = inr data ->
  get data "articles" = inr (Arr (before ++ Obj fields :: after)) ->
  (forall article, In article before -> forall i, exists entry, article_entry article i = inr entry) ->
  lookup "tags" fields = Undefined ->
  to_string (lookup "title" fields) = inr title ->
  to_string (lookup "reading_time_minutes" fields) = inr minutes ->
  to_string (lookup "url" fields) = inr link ->
  outcome backend (call "list_articles" args)
  = inr (text_result
           ("エラーが発生しました: " ++ error_message (ReadOfNullish Undefined "join"))).
Proof.
  intros Hsent Hb Hok Hj Ha Hwf Ht Htitle Hminutes Hlink.
  destruct (list_articles_sent backend args Hsent) as [limit Hl].
  assert (Hmap : map_indexed article_entry 0 (before ++ Obj fields :: after)
                 = inl (ReadOfNullish Undefined "join")).
  { apply map_indexed_throw; [exact Hwf | ].
    intros i. unfold article_entry. cbn [get opt_get sum_bind].
    rewrite Htitle. cbn [sum_bind]. rewrite Hminutes. cbn [sum_bind].
    rewrite Hlink. cbn [sum_bind]. now rewrite Ht. }
  answered Hb. unfold or_else. cbn [truthy].
  destruct before; cbn [app length_is_zero map_receiver lift bind try_catch];
    cbn [app] in Hmap; rewrite Hmap; reflexivity.
Qed.

(** X9: the [limit] of a search that reaches the backend is 10 when the
    argument is absent or falsy, the given number when it is not 0 and at
    most 30, also when it is negative or a fraction, and 30 when it is
    above 30. *)
Theorem search_limit_parameter backend args escaped :
  truthy (opt_get args "query") = true ->
  encoded (opt_get args "query") = inr escaped ->
  (truthy (opt_get args "limit") = false ->
   map url (requests backend (call "search_articles" args))
   = [ search_endpoint CURAQ_API_URL (or_else (opt_get args "mode") (Str "semantic"))
       ++ "?q=" ++ escaped ++ "&limit=10" ])
  /\
  (forall n, opt_get args "limit" = Num (Int n) -> n <> 0 -> n <= 30 ->
   map url (requests backend (call "search_articles" args))
   = [ search_endpoint CURAQ_API_URL (or_else (opt_get args "mode") (Str "semantic"))
       ++ "?q=" ++ escaped ++ "&limit=" ++ number_to_string (Int n) ])
  /\
  (forall q, opt_get args "limit" = Num (Frac q) -> ~ (q == 0)%Q -> (q <= 30)%Q ->
   map url (requests backend (call "search_articles" args))
   = [ search_endpoint CURAQ_API_URL (or_else (opt_get args "mode") (Str "semantic"))
       ++ "?q=" ++ escaped ++ "&limit=" ++ number_to_string (Frac q) ])
  /\
  (forall n, opt_get args "limit" = Num (Int n) -> 30 < n ->
   map url (requests backend (call "search_articles" args))
   = [ search_endpoint CURAQ_API_URL (or_else (opt_get args "mode") (Str "semantic"))
       ++ "?q=" ++ escaped ++ "&limit=30" ])
  /\
  (forall q, opt_get args "limit" = Num (Frac q) -> (30 < q)%Q ->
   map url (requests backend (call "search_articles" args))
   = [ search_endpoint CURAQ_API_URL (or_else (opt_get args "mode") (Str "semantic"))
       ++ "?q=" ++ escaped ++ "&limit=30" ]).
Proof.
  intros Hq He.
  assert (Hsent : forall limit,
             Math_min (or_else (opt_get args "limit") (Num (Int 10))) 30 = inr limit ->
             map url (requests backend (call "search_articles" args))
             = [ search_endpoint CURAQ_API_URL (or_else (opt_get args "mode") (Str "semantic"))
                 ++ "?q=" ++ escaped ++ "&limit=" ++ number_to_string limit ]).
  { intros limit Hl. now rewrite (search_articles_requests backend args limit escaped Hl Hq He). }
  assert (Hnonzero : forall q, ~ (q == 0)%Q -> Qeq_bool q 0 = false).
  { intros q Hz. destruct (Qeq_bool q 0) eqn:E; [ | reflexivity ].
    elim Hz. now apply Qeq_bool_iff. }
  repeat split.
  - intros H. apply (Hsent (Int 10)). unfold or_else at 1. now rewrite H.
  - intros n H Hn Hle. apply (Hsent (Int n)). unfold or_else at 1. rewrite H. cbn [truthy].
    destruct (Z.eqb_spec n 0); [contradiction | ]. cbn.
    now rewrite Z.min_l by lia.
  - intros q H Hz Hle. apply (Hsent (Frac q)). unfold or_else at 1. rewrite H. cbn [truthy].
    rewrite (Hnonzero q Hz). cbn.
    replace (Qle_bool q (inject_Z 30)) with true; [reflexivity | ].
    symmetry. now apply Qle_bool_iff.
  - intros n H Hlt. apply (Hsent (Int 30)). unfold or_else at 1. rewrite H. cbn [truthy].
    destruct (Z.eqb_spec n 0); [lia | ]. cbn.
    now rewrite Z.min_r by lia.
  - intros q H Hlt. apply (Hsent (Int 30)). unfold or_else at 1. rewrite H. cbn [truthy].
    assert (Hz : ~ (q == 0)%Q).
    { intros E. rewrite E in Hlt. discriminate Hlt. }
    rewrite (Hnonzero q Hz). cbn.
    replace (Qle_bool q (inject_Z 30)) with false; [reflexivity | ].
    symmetry. destruct (Qle_bool q (inject_Z 30)) eqn:E; [ | reflexivity ].
    apply Qle_bool_iff in E. exfalso. exact (Qlt_not_le _ _ Hlt E).
Qed.

(** X10: a search that has reached the backend and finds nothing
    ([articles] absent, falsy or an empty array) is answered with a
    sentence that quotes the query, converted to the string [quoted]; the
    wording is the related-articles one in semantic mode and the
    matching-articles one otherwise. *)
Theorem search_empty_answer backend args r data articles quoted :
  requests backend (call "search_articles" args) <> [] ->
  to_string (opt_get args "query") = inr quoted ->
  (forall req, backend req = inr r) ->
  ok r = true ->
  body_json r = inr data ->
  get data "articles" = inr articles ->
  truthy articles = false \/ articles = Arr [] ->
  (truthy (opt_get args "mode") = false \/ opt_get args "mode" = Str "semantic" ->
   outcome backend (call "search_articles" args)
   = inr (text_result ("「" ++ quoted ++ "」に関連する記事が見つかりませんでした。")))
  /\
  (truthy (opt_get args "mode") = true -> opt_get args "mode" <> Str "semantic" ->
   outcome backend (call "search_articles" args)
   = inr (text_result ("「" ++ quoted ++ "」に一致する記事が見つかりませんでした。"))).
Proof.
  intros Hsent Hquoted Hb Hok Hj Ha He.
  destruct (search_articles_sent backend args Hsent) as [limit [escaped [Hl [Hq Henc]]]].
  assert (Hempty : length_is_zero (or_else articles (Arr [])) = inr true).
  { unfold or_else. destruct He as [He | He]; rewrite He; reflexivity. }
  split.
  - intros Hm. answered Hb.
    unfold or_else. destruct Hm as [Hm | Hm]; rewrite Hm; reflexivity.
  - intros Hm Hne. answered Hb.
    unfold or_else at 1. rewrite Hm. now rewrite (is_str_false _ _ Hne).
Qed.

(** X22: a search that has reached the backend and finds articles that all
    render has a header with the label of the mode (semantic when [mode]
    is omitted, falsy or [semantic], keyword otherwise), the query and the
    number of articles, and then the entries. *)
Theorem search_results_header backend args r data items entries quoted :
  requests backend (call "search_articles" args) <> [] ->
  to_string (opt_get args "query") = inr quoted ->
  (forall req, backend req = inr r) ->
  ok r = true ->
  body_json r = inr data ->
  get data "articles" = inr (Arr items) ->
  items <> [] ->
  map_indexed article_entry 0 items = inr entries ->
  (truthy (opt_get args "mode") = false \/ opt_get args "mode" = Str "semantic" ->
   outcome backend (call "search_articles" args)
   = inr (text_result
            ("セマンティック検索結果：「" ++ quoted ++ "」（"
             ++ number_to_string (Int (Z.of_nat (List.length items))) ++ "件）"
             ++ LF ++ "詳細が必要な場合は get_article で記事IDを指定してください。"
             ++ LF ++ LF ++ join (LF ++ LF) entries)))
  /\
  (truthy (opt_get args "mode") = true -> opt_get args "mode" <> Str "semantic" ->
   outcome backend (call "search_articles" args)
   = inr (text_result
            ("キーワード検索結果：「" ++ quoted ++ "」（"
             ++ number_to_string (Int (Z.of_nat (List.length items))) ++ "件）"
             ++ LF ++ "詳細が必要な場合は get_article で記事IDを指定してください。"
             ++ LF ++ LF ++ join (LF ++ LF) entries))).
Proof.
  intros Hsent Hquoted Hb Hok Hj Ha Hne Hmap.
  destruct (search_articles_sent backend args Hsent) as [limit [escaped [Hl [Hq Henc]]]].
  assert (Hnonempty : length_is_zero (or_else (Arr items) (Arr [])) = inr false).
  { unfold or_else. cbn [truthy]. destruct items; [now elim Hne | reflexivity]. }
  assert (Hitems : map_receiver "searchResults.map" (or_else (Arr items) (Arr [])) = inr items)
    by reflexivity.
  split.
  - intros Hm. answered Hb.
    unfold or_else. destruct Hm as [Hm | Hm]; rewrite Hm; reflexivity.
  - intros Hm Hnot. answered Hb.
    unfold or_else. rewrite Hm, (is_str_false _ _ Hnot). reflexivity.
Qed.

(** X11: for an article that renders, the event history has one line per
    event, in the order of the response: the action, then the localized
    time in brackets. *)
Theorem get_article_event_lines backend args r data article detail events lines id_text :
  truthy (opt_get args "article_id") = true ->
  to_string (opt_get args "article_id") = inr id_text ->
  (forall req, backend req = inr r) ->
  ok r = true ->
  body_json r = inr data ->
  get data "article" = inr article ->
  article_detail article = inr detail ->
  opt_get data "events" = Arr events ->
  Forall2 (fun e line =>
             e <> Undefined /\ e <> Null
             /\ exists action time,
                  to_string (opt_get e "action") = inr action
                  /\ toLocaleString (opt_get e "created_at") = inr time
                  /\ line = "- " ++ action ++ " (" ++ time ++ ")")
          events lines ->
  outcome backend (call "get_article" args)
  = inr (text_result (detail ++ "**イベント履歴**:" ++ LF ++ join LF lines)).
Proof.
  intros Hid Hs Hb Hok Hj Ha Hd He Hlines.
  assert (Hmap : map_indexed event_line 0 events = inr lines).
  { apply map_indexed_Forall2.
    revert Hlines. apply Forall2_impl.
    intros e line (Hu & Hn & action & time & Haction & Htime & ->) i.
    unfold event_line.
    assert (Hget : get e "action" = inr (opt_get e "action"))
      by (destruct e; try reflexivity; [now elim Hu | now elim Hn]).
    rewrite Hget. cbn [sum_bind]. rewrite Haction. cbn [sum_bind]. now rewrite Htime. }
  answered Hb. rewrite He. unfold or_else. cbn [truthy map_receiver lift bind try_catch].
  rewrite Hmap. reflexivity.
Qed.

(** X12: a 2xx answer to a [get_article] that has reached the backend and
    cannot be rendered does not escape the handler: a body that is not
    JSON is answered with the text of the [catch] and the parser's
    message, and a body without [article] with the text of the [catch]
    and the message of the failed read of [title]. *)
Theorem get_article_unreadable_body backend args r :
  requests backend (call "get_article" args) <> [] ->
  (forall req, backend req = inr r) ->
  ok r = true ->
  (forall e, body_json r = inl e ->
   outcome backend (call "get_article" args)
   = inr (text_result ("エラーが発生しました: " ++ error_message e)))
  /\
  (forall fields, body_json r = inr (Obj fields) ->
   lookup "article" fields = Undefined \/ lookup "article" fields = Null ->
   outcome backend (call "get_article" args)
   = inr (text_result
            ("エラーが発生しました: "
             ++ error_message (ReadOfNullish (lookup "article" fields) "title")))).
Proof.
  intros Hsent Hb Hok.
  destruct (get_article_sent backend args Hsent) as [Hid [id_text Hs]]. split.
  - intros e Hj. answered Hb. reflexivity.
  - intros fields Hj Ha. answered Hb. cbn [get lift bind try_catch].
    destruct Ha as [Ha | Ha]; rewrite Ha; reflexivity.
Qed.

(** X13: a [get_article] that has reached the backend answers a status
    outside 200..299 other than 404 and 403 with the status and the body
    text. *)
Theorem get_article_other_status backend args r :
  requests backend (call "get_article" args) <> [] ->
  (forall req, backend req = inr r) ->
  ok r = false ->
  status r <> 404 ->
  status r <> 403 ->
  outcome backend (call "get_article" args)
  = inr (text_result
           ("エラー (" ++ number_to_string (Int (status r)) ++ "): " ++ body_text r)).
Proof.
  intros Hsent Hb Hok H404 H403.
  destruct (get_article_sent backend args Hsent) as [Hid [id_text Hs]].
  answered Hb.
  destruct (Z.eqb_spec (status r) 404); [contradiction | ].
  destruct (Z.eqb_spec (status r) 403); [contradiction | ].
  reflexivity.
Qed.

(** X14: the answers of [update_article_status] once the call passes
    validation and its [article_id] converts to the string [id_text]: 404
    gives the not-found text with the id; any other status outside
    200..299 the status and the body text; a 2xx the confirmation of the
    action with the id, whatever the body holds. *)
Theorem update_article_status_answer backend args r id_text :
  truthy (opt_get args "article_id") = true ->
  to_string (opt_get args "article_id") = inr id_text ->
  opt_get args "action" = Str "read" \/ opt_get args "action" = Str "delete" ->
  (forall req, backend req = inr r) ->
  (status r = 404 ->
   outcome backend (call "update_article_status" args)
   = inr (text_result ("記事が見つかりませんでした（ID: " ++ id_text ++ "）")))
  /\
  (ok r = false -> status r <> 404 ->
   outcome backend (call "update_article_status" args)
   = inr (text_result
            ("エラー (" ++ number_to_string (Int (status r)) ++ "): " ++ body_text r)))
  /\
  (ok r = true -> opt_get args "action" = Str "read" ->
   outcome backend (call "update_article_status" args)
   = inr (text_result ("記事を既読にマークしました（ID: " ++ id_text ++ "）")))
  /\
  (ok r = true -> opt_get args "action" = Str "delete" ->
   outcome backend (call "update_article_status" args)
   = inr (text_result ("記事を削除しました（ID: " ++ id_text ++ "）"))).
Proof.
  intros Hid Hs Hact Hb.
  split; [ | split; [ | split ] ].
  - intros Hst. assert (Hok : ok r = false) by (unfold ok; now rewrite Hst).
    destruct Hact as [Ha | Ha]; open_tool; rewrite Hid, Ha;
      cbn [negb orb andb truthy is_str String.eqb Ascii.eqb Bool.eqb];
      settle; rewrite outcome_Fetch, Hb; settle; rewrite Hst; cbn [Z.eqb Pos.eqb];
      unfold not_found_text; settle; reflexivity.
  - intros Hok Hst.
    destruct Hact as [Ha | Ha]; open_tool; rewrite Hid, Ha;
      cbn [negb orb andb truthy is_str String.eqb Ascii.eqb Bool.eqb];
      settle; rewrite outcome_Fetch, Hb; settle;
      (destruct (Z.eqb_spec (status r) 404); [contradiction | reflexivity]).
  - intros Hok Ha. open_tool. rewrite Hid, Ha.
    cbn [negb orb andb truthy is_str String.eqb Ascii.eqb Bool.eqb].
    settle. rewrite outcome_Fetch, Hb. settle. reflexivity.
  - intros Hok Ha. open_tool. rewrite Hid, Ha.
    cbn [negb orb andb truthy is_str String.eqb Ascii.eqb Bool.eqb].
    settle. rewrite outcome_Fetch, Hb. settle. reflexivity.
Qed.

(** X15: when the backend declines a save and the body is not JSON, the
    error body is taken to be [{ error: "unknown" }]: whatever the status,
    400 included, the answer is the status followed by [unknown]. *)
Theorem save_declined_unparseable backend args r e :
  truthy (opt_get args "url") = true ->
  (forall req, backend req = inr r) ->
  ok r = false ->
  body_json r = inl e ->
  outcome backend (call "save_article" args)
  = inr (text_result ("エラー (" ++ number_to_string (Int (status r)) ++ "): unknown")).
Proof.
  intros Hu Hb Hok Hj. answered Hb.
  unfold save_error_data, save_error_generic. rewrite Hj.
  destruct (status r =? 400); reflexivity.
Qed.

(** X16: the request of a save is a POST of JSON to [/api/v1/articles]
    whose body holds the [url], a truthy [title] and a truthy [markdown]
    under their own keys, and no other key: no other argument of the call
    reaches the backend. *)
Theorem save_request_contents backend args :
  truthy (opt_get args "url") = true ->
  exists fields,
    requests backend (call "save_article" args)
    = [ {| url := CURAQ_API_URL ++ "/api/v1/articles";
           method := Some "POST";
           headers := [ ("Authorization", "Bearer " ++ CURAQ_MCP_TOKEN);
                        ("Content-Type", "application/json") ];
           body := Some (Obj fields) |} ]
    /\ lookup "url" fields = opt_get args "url"
    /\ (truthy (opt_get args "title") = true ->
        lookup "title" fields = opt_get args "title")
    /\ (truthy (opt_get args "markdown") = true ->
        lookup "markdown" fields = opt_get args "markdown")
    /\ (forall key, has_key key fields = true ->
        key = "url" \/ key = "title" \/ key = "markdown").
Proof.
  intros Hu. rewrite (save_article_requests backend args Hu).
  unfold save_request_body. eexists. split; [reflexivity | ].
  destruct (truthy (opt_get args "title")), (truthy (opt_get args "markdown"));
    (split; [reflexivity | ]);
    (split; [intros H; try discriminate H; reflexivity | ]);
    (split; [intros H; try discriminate H; reflexivity | ]);
    intros key; cbn [has_key existsb app fst orb];
    repeat match goal with
           | |- context [(?lit =? key)%string] =>
               destruct (String.eqb_spec lit key); [subst; auto | ]
           end;
    cbn [orb]; intros H; discriminate H.
Qed.

(** X17: the handler answers a name as an unknown tool, without a request,
    exactly when the name is not one that [ListTools] announces. *)
Theorem unknown_iff_not_listed backend name args :
  run backend (call name args) = ([], inr (text_result ("不明なツール: " ++ name)))
  <-> ~ In name tool_names.
Proof.
  split.
  - intros Hrun Hin.
    assert (Hreq : requests backend (call name args) = [])
      by (unfold requests; now rewrite Hrun).
    assert (Hout : outcome backend (call name args)
                   = inr (text_result ("不明なツール: " ++ name)))
      by (unfold outcome; now rewrite Hrun).
    clear Hrun.
    assert (Hcase : (exists message, validation_failure name args message)
                    \/ exists e, outcome backend (call name args)
                                 = inr (text_result
                                          ("エラーが発生しました: " ++ error_message e))).
    { revert Hreq. generalize Hin. clear Hin Hout.
      intros Hin Hreq.
      destruct (truthy (opt_get args "query")) eqn:Hq.
      - simpl in Hin. destruct Hin as [<- | [<- | [<- | [<- | [<- | []]]]]].
        + destruct (Math_min (or_else (opt_get args "limit") (Num (Int 20))) 50)
            as [e | limit] eqn:Hl.
          * right. exists e. unfold outcome.
            now rewrite (list_articles_thrown backend args e Hl).
          * rewrite (list_articles_requests backend args limit Hl) in Hreq.
            discriminate Hreq.
        + destruct (Math_min (or_else (opt_get args "limit") (Num (Int 10))) 30)
            as [e | limit] eqn:Hl;
            [ right; exists e; open_tool; settle; reflexivity | ].
          destruct (encoded (opt_get args "query")) as [e | escaped] eqn:He;
            [ right; exists e; open_tool; settle; reflexivity | ].
          rewrite (search_articles_requests backend args limit escaped Hl Hq He) in Hreq.
          discriminate Hreq.
        + destruct (truthy (opt_get args "article_id")) eqn:Hid;
            [ | left; eexists; now apply missing_article_id ].
          destruct (to_string (opt_get args "article_id")) as [e | id_text] eqn:Hs;
            [ right; exists e; open_tool; settle; reflexivity | ].
          rewrite (get_article_requests backend args id_text Hid Hs) in Hreq.
          discriminate Hreq.
        + destruct (truthy (opt_get args "article_id")) eqn:Hid;
            [ | left; eexists; apply missing_id_or_action; now left ].
          destruct (truthy (opt_get args "action")) eqn:Hact;
            [ | left; eexists; apply missing_id_or_action; now right ].
          destruct (is_str (opt_get args "action") "read"
                    || is_str (opt_get args "action") "delete") eqn:Hvalid.
          * destruct (to_string (opt_get args "article_id")) as [e | id_text] eqn:Hs.
            -- right. exists e. open_tool. rewrite Hid, Hact. cbn [negb orb].
               rewrite <- negb_orb, Hvalid. settle. reflexivity.
            -- rewrite (update_article_status_requests backend args id_text
                          Hid Hact Hvalid Hs) in Hreq.
               discriminate Hreq.
          * apply orb_false_iff in Hvalid. destruct Hvalid as [Hread Hdel].
            left. eexists. now apply invalid_action.
        + destruct (truthy (opt_get args "url")) eqn:Hu;
            [ | left; eexists; now apply missing_url ].
          rewrite (save_article_requests backend args Hu) in Hreq. discriminate Hreq.
      - simpl in Hin. destruct Hin as [<- | [<- | [<- | [<- | [<- | []]]]]].
        + destruct (Math_min (or_else (opt_get args "limit") (Num (Int 20))) 50)
            as [e | limit] eqn:Hl.
          * right. exists e. unfold outcome.
            now rewrite (list_articles_thrown backend args e Hl).
          * rewrite (list_articles_requests backend args limit Hl) in Hreq.
            discriminate Hreq.
        + left. eexists. now apply missing_query.
        + destruct (truthy (opt_get args "article_id")) eqn:Hid;
            [ | left; eexists; now apply missing_article_id ].
          destruct (to_string (opt_get args "article_id")) as [e | id_text] eqn:Hs;
            [ right; exists e; open_tool; settle; reflexivity | ].
          rewrite (get_article_requests backend args id_text Hid Hs) in Hreq.
          discriminate Hreq.
        + destruct (truthy (opt_get args "article_id")) eqn:Hid;
            [ | left; eexists; apply missing_id_or_action; now left ].
          destruct (truthy (opt_get args "action")) eqn:Hact;
            [ | left; eexists; apply missing_id_or_action; now right ].
          destruct (is_str (opt_get args "action") "read"
                    || is_str (opt_get args "action") "delete") eqn:Hvalid.
          * destruct (to_string (opt_get args "article_id")) as [e | id_text] eqn:Hs.
            -- right. exists e. open_tool. rewrite Hid, Hact. cbn [negb orb].
               rewrite <- negb_orb, Hvalid. settle. reflexivity.
            -- rewrite (update_article_status_requests backend args id_text
                          Hid Hact Hvalid Hs) in Hreq.
               discriminate Hreq.
          * apply orb_false_iff in Hvalid. destruct Hvalid as [Hread Hdel].
            left. eexists. now apply invalid_action.
        + destruct (truthy (opt_get args "url")) eqn:Hu;
            [ | left; eexists; now apply missing_url ].
          rewrite (save_article_requests backend args Hu) in Hreq. discriminate Hreq. }
    destruct Hcase as [[message Hvf] | [e He]].
    + destruct (String.eqb_spec name "search_articles") as [Hname | Hname].
      * destruct (Math_min (or_else (opt_get args "limit") (Num (Int 10))) 30)
          as [e | limit] eqn:Hl.
        -- subst name. revert Hout. open_tool. settle. cbn. discriminate.
        -- rewrite (validation_failure_Ret name args message Hvf
                      (fun _ => ex_intro _ limit Hl)) in Hout.
           destruct Hvf; discriminate Hout.
      * rewrite (validation_failure_Ret name args message Hvf) in Hout
          by (intros E; now elim Hname).
        destruct Hvf; discriminate Hout.
    + rewrite He in Hout.
      simpl in Hin. destruct Hin as [<- | [<- | [<- | [<- | [<- | []]]]]];
        cbn in Hout; discriminate Hout.
  - intros Hnot. unfold CallTool, dispatch.
    repeat match goal with
           | |- context [(name =? ?lit)%string] =>
               destruct (String.eqb_spec name lit);
               [ elim Hnot; subst name; simpl; tauto | ]
           end.
    reflexivity.
Qed.

(** X18: every key that the schema of a tool lists under [required] is
    checked before anything is sent: a call in which it is absent or falsy
    sends no request. *)
Theorem required_keys_are_checked backend t key args :
  In t (tools ListTools) ->
  In key (required_keys t) ->
  truthy (opt_get args key) = false ->
  requests backend (call (Tool.name t) args) = [].
Proof.
  intros Ht Hkey Hfalsy.
  assert (Hvf : exists message, validation_failure (Tool.name t) args message).
  { simpl in Ht. destruct Ht as [<- | [<- | [<- | [<- | [<- | []]]]]];
      cbn in Hkey;
      repeat match goal with
             | H : _ \/ _ |- _ => destruct H as [H | H]
             | H : False |- _ => destruct H
             end;
      subst key; cbn [Tool.name]; eexists.
    - now apply missing_query.
    - now apply missing_article_id.
    - apply missing_id_or_action. now left.
    - apply missing_id_or_action. now right.
    - now apply missing_url. }
  destruct Hvf as [message Hvf].
  exact (validation_failure_quiet backend _ args message Hvf).
Qed.

(** X19: every default that the schema of a tool declares is the one the
    handler applies: a call that omits the key runs as the call that gives
    the declared default for it. *)
Theorem declared_defaults_are_applied backend t key d args args' :
  In t (tools ListTools) ->
  In (key, d) (declared_defaults t) ->
  opt_get args key = Undefined ->
  opt_get args' key = d ->
  (forall other, other <> key -> opt_get args' other = opt_get args other) ->
  run backend (call (Tool.name t) args') = run backend (call (Tool.name t) args).
Proof.
  intros Ht Hd Habsent Hgiven Hsame.
  simpl in Ht. destruct Ht as [<- | [<- | [<- | [<- | [<- | []]]]]];
    cbn in Hd;
    repeat match goal with
           | H : _ \/ _ |- _ => destruct H as [H | H]
           | H : False |- _ => destruct H
           end;
    injection Hd as <- <-; cbn [Tool.name];
    unfold CallTool, dispatch; cbn [String.eqb Ascii.eqb Bool.eqb].
  - unfold list_articles. now rewrite Hgiven, Habsent.
  - unfold search_articles.
    rewrite Hgiven, Habsent, !(Hsame "query"), !(Hsame "limit") by discriminate.
    reflexivity.
  - unfold search_articles.
    rewrite Hgiven, Habsent, !(Hsame "query"), !(Hsame "mode") by discriminate.
    reflexivity.
Qed.

Lemma hex_digit_unreserved (d : N) : (d < 16)%N -> uri_unreserved (hex_digit d) = true.
Proof.
  intros H.
  assert (Hd : (d = 0 \/ d = 1 \/ d = 2 \/ d = 3 \/ d = 4 \/ d = 5 \/ d = 6 \/ d = 7
                \/ d = 8 \/ d = 9 \/ d = 10 \/ d = 11 \/ d = 12 \/ d = 13 \/ d = 14
                \/ d = 15)%N) by lia.
  repeat (destruct Hd as [-> | Hd]; [reflexivity | ]). subst d. reflexivity.
Qed.

Lemma In_append (a b : string) c :
  In c (list_ascii_of_string (a ++ b)) ->
  In c (list_ascii_of_string a) \/ In c (list_ascii_of_string b).
Proof.
  induction a as [| ch a IH]; simpl; [now right | ].
  intros [<- | H]; [now left; left | ].
  destruct (IH H); [left; now right | now right].
Qed.

Lemma percent_chars (octet : N) c :
  (octet < 256)%N ->
  In c (list_ascii_of_string (percent octet)) ->
  uri_unreserved c = true \/ c = "%"%char.
Proof.
  intros Ho. unfold percent. simpl.
  intros [<- | [<- | [<- | []]]]; [now right | left | left ];
    apply hex_digit_unreserved.
  - apply N.Div0.div_lt_upper_bound. lia.
  - apply N.mod_lt. lia.
Qed.

Lemma percent_pair_chars l1 l2 t1 t2 c :
  lead_byte l1 = true -> trail_byte t1 = true ->
  In c (list_ascii_of_string (percent_pair l1 l2 t1 t2)) ->
  uri_unreserved c = true \/ c = "%"%char.
Proof.
  unfold lead_byte, trail_byte, percent_pair. intros Hl Ht.
  apply andb_prop in Hl. destruct Hl as [Hl1 Hl2].
  apply andb_prop in Ht. destruct Ht as [Ht1 Ht2].
  apply N.leb_le in Hl1, Hl2, Ht1, Ht2.
  set (high := ((N_of_ascii l1 - 160) * 64 + N_of_ascii l2 mod 64)%N).
  set (low := ((N_of_ascii t1 - 176) * 64 + N_of_ascii t2 mod 64)%N).
  assert (Hhigh : (high < 1024)%N).
  { unfold high. pose proof (N.mod_lt (N_of_ascii l2) 64). lia. }
  assert (Hlow : (low < 1024)%N).
  { unfold low. pose proof (N.mod_lt (N_of_ascii t2) 64). lia. }
  set (cp := (65536 + high * 1024 + low)%N).
  assert (Hcp : (cp < 1114112)%N) by (unfold cp; lia).
  intros H.
  apply In_append in H. destruct H as [H | H].
  { apply percent_chars in H; [exact H | ].
    assert ((cp / 262144 < 5)%N) by (apply N.Div0.div_lt_upper_bound; lia). lia. }
  apply In_append in H. destruct H as [H | H].
  { apply percent_chars in H; [exact H | ].
    pose proof (N.mod_lt (cp / 4096) 64). lia. }
  apply In_append in H. destruct H as [H | H].
  { apply percent_chars in H; [exact H | ].
    pose proof (N.mod_lt (cp / 64) 64). lia. }
  apply percent_chars in H; [exact H | ].
  pose proof (N.mod_lt cp 64). lia.
Qed.

Lemma N_of_ascii_bound (c : ascii) : (N_of_ascii c < 256)%N.
Proof. apply N_ascii_bounded. Qed.

(** What [encodeURIComponent] returns holds only unreserved characters
    and [%]. *)
Lemma encodeURIComponent_chars :
  forall (n : nat) (s : string),
    (String.length s <= n)%nat ->
    forall escaped c,
      encodeURIComponent s = inr escaped ->
      In c (list_ascii_of_string escaped) ->
      uri_unreserved c = true \/ c = "%"%char.
Proof.
  induction n as [| n IH]; intros s Hlen escaped c He Hc.
  - destruct s; [ | simpl in Hlen; lia ]. simpl in He. injection He as <-. destruct Hc.
  - destruct s as [| ch rest]; [simpl in He; injection He as <-; destruct Hc | ].
    simpl in Hlen.
    assert (Hplain : forall tail,
               encodeURIComponent rest = inr tail ->
               In c (list_ascii_of_string (percent (N_of_ascii ch) ++ tail)) ->
               uri_unreserved c = true \/ c = "%"%char).
    { intros tail Ht H. apply In_append in H. destruct H as [H | H].
      - exact (percent_chars _ c (N_of_ascii_bound ch) H).
      - apply (IH rest ltac:(lia) tail c Ht H). }
    cbn [encodeURIComponent] in He.
    destruct (uri_unreserved ch) eqn:Hch.
    + apply sum_bind_inr in He. destruct He as [tail [Ht He]].
      injection He as <-. simpl in Hc. destruct Hc as [<- | Hc]; [now left | ].
      apply (IH rest ltac:(lia) tail c Ht Hc).
    + destruct rest as [| l1 [| l2 after_lead]].
      * apply sum_bind_inr in He. destruct He as [tail [Ht He]].
        injection He as <-. exact (Hplain tail Ht Hc).
      * apply sum_bind_inr in He. destruct He as [tail [Ht He]].
        injection He as <-. exact (Hplain tail Ht Hc).
      * destruct (surrogate_byte ch && lead_byte l1) eqn:Hlead.
        -- apply andb_prop in Hlead. destruct Hlead as [_ Hlead].
           destruct after_lead as [| c' [| t1 [| t2 after_pair]]]; try discriminate He.
           destruct (surrogate_byte c' && trail_byte t1) eqn:Htrail; [ | discriminate He ].
           apply andb_prop in Htrail. destruct Htrail as [_ Htrail].
           apply sum_bind_inr in He. destruct He as [tail [Ht He]].
           remember (percent_pair l1 l2 t1 t2) as pair eqn:Hpair.
           injection He as <-. apply In_append in Hc. destruct Hc as [Hc | Hc].
           ++ rewrite Hpair in Hc.
              exact (percent_pair_chars l1 l2 t1 t2 c Hlead Htrail Hc).
           ++ apply (IH after_pair ltac:(simpl in Hlen; lia) tail c Ht Hc).
        -- destruct (surrogate_byte ch && trail_byte l1); [discriminate He | ].
           apply sum_bind_inr in He. destruct He as [tail [Ht He]].
           injection He as <-. exact (Hplain tail Ht Hc).
Qed.

(** X20: in the URL of every search request the query is escaped: between
    [?q=] and [&limit=] there are only unreserved characters and [%], so
    none of [&], [=], [#], [?], [/], [+] or a space of the query reaches
    the URL as such. *)
Theorem search_query_is_escaped backend args target :
  In target (map url (requests backend (call "search_articles" args))) ->
  exists escaped limit,
    target
    = search_endpoint CURAQ_API_URL (or_else (opt_get args "mode") (Str "semantic"))
      ++ "?q=" ++ escaped ++ "&limit=" ++ number_to_string limit
    /\ (forall c, In c (list_ascii_of_string escaped) ->
                  uri_unreserved c = true \/ c = "%"%char)
    /\ (forall c, In c ["&"; "="; "#"; "?"; "/"; "+"; " "]%char ->
                  ~ In c (list_ascii_of_string escaped)).
Proof.
  intros Hin.
  assert (Hsent : requests backend (call "search_articles" args) <> []).
  { intros E. rewrite E in Hin. destruct Hin. }
  destruct (search_articles_sent backend args Hsent) as [limit [escaped [Hl [Hq He]]]].
  rewrite (search_articles_requests backend args limit escaped Hl Hq He) in Hin.
  destruct Hin as [<- | []]. exists escaped, limit. cbn [url].
  split; [reflexivity | ].
  assert (Hchars : forall c, In c (list_ascii_of_string escaped) ->
                             uri_unreserved c = true \/ c = "%"%char).
  { unfold encoded in He. apply sum_bind_inr in He. destruct He as [s [_ He]].
    intros c. exact (encodeURIComponent_chars (String.length s) s (le_n _) escaped c He). }
  split; [exact Hchars | ].
  intros c Hc Hin. apply Hchars in Hin. simpl in Hc.
  repeat match goal with
         | H : _ \/ _ |- _ => destruct H as [H | H]
         | H : False |- _ => destruct H
         end;
    try subst c; try discriminate.
Qed.

End DispatcherFacts.

(** ** The claims at concrete calls *)

#[local] Existing Instance Demo.engine.

Local Notation "'demo' thm" := (thm Demo.api Demo.token Demo.engine)
  (at level 10, thm at level 0, only parsing).

Lemma unknown_tool_answer_witness :
  run Demo.offline (Demo.handler "archive_article" Undefined)
  = ([], inr (text_result "不明なツール: archive_article")).
Proof.
  apply (demo unknown_tool_answer Demo.offline "archive_article" Undefined); discriminate.
Defined.

Lemma validation_failure_answer_witness :
  validation_failure "update_article_status"
    (Obj [("article_id", Str "a1"); ("action", Str "archive")])
    "エラー: アクションは 'read' または 'delete' のいずれかを指定してください"
  /\ requests Demo.offline
       (Demo.handler "update_article_status"
          (Obj [("article_id", Str "a1"); ("action", Str "archive")]))
     = []
  /\ outcome Demo.offline
       (Demo.handler "update_article_status"
          (Obj [("article_id", Str "a1"); ("action", Str "archive")]))
     = inr (text_result
              "エラー: アクションは 'read' または 'delete' のいずれかを指定してください").
Proof.
  assert (H : validation_failure "update_article_status"
                (Obj [("article_id", Str "a1"); ("action", Str "archive")])
                "エラー: アクションは 'read' または 'delete' のいずれかを指定してください")
    by (apply invalid_action; reflexivity).
  destruct (demo validation_failure_answer Demo.offline _ _ _ H) as [Hquiet [_ Htext]].
  split; [exact H | ]. split; [exact Hquiet | ].
  apply Htext. intros E. discriminate E.
Defined.

(** C3 as the spec states it fails: a search without a query whose limit
    is an object with no primitive value is answered with the text of the
    [catch], not with the validation text. *)
Lemma search_unconvertible_limit_counterexample :
  validation_failure "search_articles" (Obj [("limit", Obj [("toString", Num (Int 1))])])
    "エラー: 検索キーワードを指定してください"
  /\ outcome Demo.offline
       (Demo.handler "search_articles" (Obj [("limit", Obj [("toString", Num (Int 1))])]))
     = inr (text_result "エラーが発生しました: Cannot convert object to primitive value")
  /\ outcome Demo.offline
       (Demo.handler "search_articles" (Obj [("limit", Obj [("toString", Num (Int 1))])]))
     <> inr (text_result "エラー: 検索キーワードを指定してください").
Proof.
  split; [apply missing_query; reflexivity | ].
  split; [reflexivity | ].
  intros H. vm_compute in H. discriminate H.
Qed.

Lemma search_endpoint_by_mode_witness :
  truthy (opt_get (Obj [("query", Str "rocq prover"); ("mode", Str "keyword")]) "query") = true
  /\ map url (requests Demo.offline
                (Demo.handler "search_articles"
                   (Obj [("query", Str "rocq prover"); ("mode", Str "keyword")])))
     = [ "https://curaq.app/api/v1/articles/search?q=rocq%20prover&limit=10" ].
Proof.
  split; [reflexivity | ].
  apply (proj2 (demo search_endpoint_by_mode Demo.offline
                  (Obj [("query", Str "rocq prover"); ("mode", Str "keyword")])
                  (Int 10) "rocq%20prover" eq_refl eq_refl eq_refl));
    [reflexivity | discriminate].
Defined.

(** C1 as the spec states it fails: a search with [mode] [fulltext] goes
    to the keyword endpoint, not to the semantic one. *)
Lemma search_other_mode_counterexample :
  map url (requests Demo.offline
             (Demo.handler "search_articles"
                (Obj [("query", Str "rocq"); ("mode", Str "fulltext")])))
  = [ "https://curaq.app/api/v1/articles/search?q=rocq&limit=10" ]
  /\ map url (requests Demo.offline
                (Demo.handler "search_articles"
                   (Obj [("query", Str "rocq"); ("mode", Str "fulltext")])))
     <> [ "https://curaq.app/api/v1/articles/semantic-search?q=rocq&limit=10" ].
Proof.
  split; [reflexivity | ].
  intros H. vm_compute in H. discriminate H.
Qed.

Lemma list_limit_parameter_witness :
  map url (requests Demo.offline
             (Demo.handler "list_articles" (Obj [("limit", Num (Int 999))])))
  = [ "https://curaq.app/api/v1/articles?limit=50" ]
  /\ requests Demo.offline
       (Demo.handler "list_articles" (Obj [("limit", Obj [("toString", Num (Int 1))])]))
     = [].
Proof.
  split.
  - destruct (demo list_limit_parameter Demo.offline (Obj [("limit", Num (Int 999))]))
      as (_ & _ & _ & Hcap & _).
    apply (Hcap 999); [reflexivity | lia].
  - destruct (demo list_limit_parameter Demo.offline
                (Obj [("limit", Obj [("toString", Num (Int 1))])]))
      as (_ & _ & _ & _ & _ & _ & _ & Hthrow).
    apply (Hthrow [("toString", Num (Int 1))]); reflexivity.
Defined.

(** C2 as the spec states it fails: a [limit] of -5 is sent as -5, not
    as 20. *)
Lemma list_negative_limit_counterexample :
  map url (requests Demo.offline
             (Demo.handler "list_articles" (Obj [("limit", Num (Int (-5)))])))
  = [ "https://curaq.app/api/v1/articles?limit=-5" ]
  /\ map url (requests Demo.offline
                (Demo.handler "list_articles" (Obj [("limit", Num (Int (-5)))])))
     <> [ "https://curaq.app/api/v1/articles?limit=20" ].
Proof.
  split; [reflexivity | ].
  intros H. vm_compute in H. discriminate H.
Qed.

Lemma save_body_omits_falsy_witness :
  map body (requests Demo.offline
              (Demo.handler "save_article"
                 (Obj [("url", Str "https://example.com/post"); ("title", Str "")])))
  = [ Some (Obj [("url", Str "https://example.com/post")]) ]
  /\ map body (requests Demo.offline
                 (Demo.handler "save_article" (Obj [("url", Str "https://example.com/post")])))
     = map body (requests Demo.offline
                   (Demo.handler "save_article"
                      (Obj [("url", Str "https://example.com/post"); ("title", Str "")]))).
Proof.
  split; [reflexivity | ].
  apply (demo save_body_omits_falsy Demo.offline
           (Obj [("url", Str "https://example.com/post"); ("title", Str "")])
           (Obj [("url", Str "https://example.com/post")]));
    [ reflexivity | reflexivity | right; split; reflexivity | left; reflexivity ].
Defined.



Lemma get_article_deterministic_witness :
  outcome (Demo.answer (Demo.text_response 404 "gone"))
    (Demo.handler "get_article" (Obj [("article_id", Str "a1")]))
  = outcome (Demo.answer {| status := 404; statusText := "Not Found"; body_text := "gone";
                            body_json := inl (Rejected "Unexpected token") |})
      (Demo.handler "get_article" (Obj [("article_id", Str "a1"); ("verbose", Bool true)])).
Proof.
  apply (demo get_article_deterministic) with
    (r := Demo.text_response 404 "gone")
    (r' := {| status := 404; statusText := "Not Found"; body_text := "gone";
              body_json := inl (Rejected "Unexpected token") |});
    reflexivity.
Defined.

Lemma save_declined_answer_witness :
  outcome (Demo.answer (Demo.json_response 400 "" (Obj [("error", Str "already-read")])))
    (Demo.handler "save_article" (Obj [("url", Str "https://example.com/post")]))
  = inr (text_result "この記事は既に読了済みです。")
  /\ outcome (Demo.answer (Demo.json_response 502 "" (Obj [("message", Str "Bad Gateway")])))
       (Demo.handler "save_article" (Obj [("url", Str "https://example.com/post")]))
     = inr (text_result "エラー (502): Bad Gateway").
Proof.
  split.
  - refine (proj1 (proj2 (proj2 (proj1 (proj2 (demo save_declined_answer
              (Demo.answer (Demo.json_response 400 "" (Obj [("error", Str "already-read")])))
              (Obj [("url", Str "https://example.com/post")])
              (Demo.json_response 400 "" (Obj [("error", Str "already-read")]))
              eq_refl (fun _ => eq_refl) eq_refl))
              (Obj [("error", Str "already-read")]) eq_refl _ _))) eq_refl eq_refl);
      discriminate.
  - refine (proj2 (proj2 (proj2 (proj2 (proj1 (proj2 (demo save_declined_answer
              (Demo.answer (Demo.json_response 502 "" (Obj [("message", Str "Bad Gateway")])))
              (Obj [("url", Str "https://example.com/post")])
              (Demo.json_response 502 "" (Obj [("message", Str "Bad Gateway")]))
              eq_refl (fun _ => eq_refl) eq_refl))
              (Obj [("message", Str "Bad Gateway")]) eq_refl _ _))))
              "Bad Gateway" (or_introl _) eq_refl);
      discriminate.
Defined.

(** C4 as the spec states it fails: a 500 whose body is the JSON value
    [null] is answered with the text of the [catch], not with the generic
    text that starts with the status. *)
Lemma save_declined_null_body_counterexample :
  outcome (Demo.answer (Demo.json_response 500 "null" Null))
    (Demo.handler "save_article" (Obj [("url", Str "https://example.com/post")]))
  = inr (text_result
           "エラーが発生しました: Cannot read properties of null (reading 'message')")
  /\ forall detail,
       outcome (Demo.answer (Demo.json_response 500 "null" Null))
         (Demo.handler "save_article" (Obj [("url", Str "https://example.com/post")]))
       <> inr (text_result ("エラー (500): " ++ detail)).
Proof.
  split; [reflexivity | ].
  intros detail H. vm_compute in H. discriminate H.
Qed.

Lemma save_success_answer_witness :
  outcome (Demo.answer (Demo.json_response 200 ""
                          (Obj [("success", Bool true); ("message", Str "記事は既に保存されています");
                                ("articleId", Str "a1"); ("restored", Bool true)])))
    (Demo.handler "save_article" (Obj [("url", Str "https://example.com/post")]))
  = inr (text_result
           ("記事を再登録しました" ++ LF ++ LF
            ++ "URL: https://example.com/post" ++ LF
            ++ "記事ID: a1")).
Proof.
  refine (proj1 (demo save_success_answer
            (Demo.answer (Demo.json_response 200 ""
                            (Obj [("success", Bool true);
                                  ("message", Str "記事は既に保存されています");
                                  ("articleId", Str "a1"); ("restored", Bool true)])))
            (Obj [("url", Str "https://example.com/post")])
            _ _ "https://example.com/post" "a1"
            eq_refl eq_refl (fun _ => eq_refl) eq_refl eq_refl _ _ eq_refl) eq_refl);
    discriminate.
Defined.

(** C5 as the spec states it fails: a save whose [url] is an object with
    no primitive value is sent and succeeds, and is answered with the text
    of the [catch]: no saved sentence, no URL and no id. *)
Lemma save_success_unconvertible_url_counterexample :
  List.length
    (requests (Demo.answer (Demo.json_response 200 ""
                              (Obj [("success", Bool true); ("message", Str "ok");
                                    ("articleId", Str "a1")])))
       (Demo.handler "save_article" (Obj [("url", Obj [("toString", Num (Int 1))])])))
  = 1%nat
  /\ outcome (Demo.answer (Demo.json_response 200 ""
                             (Obj [("success", Bool true); ("message", Str "ok");
                                   ("articleId", Str "a1")])))
       (Demo.handler "save_article" (Obj [("url", Obj [("toString", Num (Int 1))])]))
     = inr (text_result "エラーが発生しました: Cannot convert object to primitive value")
  /\ forall url_text,
       outcome (Demo.answer (Demo.json_response 200 ""
                               (Obj [("success", Bool true); ("message", Str "ok");
                                     ("articleId", Str "a1")])))
         (Demo.handler "save_article" (Obj [("url", Obj [("toString", Num (Int 1))])]))
       <> inr (text_result
                 ("記事を保存しました" ++ LF ++ LF ++ "URL: " ++ url_text ++ LF
                  ++ "記事ID: a1")).
Proof.
  split; [reflexivity | ]. split; [reflexivity | ].
  intros url_text H. vm_compute in H. discriminate H.
Qed.


(** ** Start of the process *)

(** X21: the process serves only with a token that is set and not empty;
    the base URL is then the one of the environment when that is set and
    not empty, and the default otherwise, so it is never empty; the
    process exits with code 1 exactly when the token is unset or empty. *)
Theorem load_started_or_exit env :
  match load env with
  | Started api_url token =>
      env "CURAQ_MCP_TOKEN" = Some token
      /\ token <> ""
      /\ api_url <> ""
      /\ (forall given, env "CURAQ_API_URL" = Some given -> given <> "" -> api_url = given)
      /\ (env "CURAQ_API_URL" = None \/ env "CURAQ_API_URL" = Some "" ->
          api_url = "https://curaq.app")
  | Exit lines code =>
      code = 1
      /\ (env "CURAQ_MCP_TOKEN" = None \/ env "CURAQ_MCP_TOKEN" = Some "")
  end.
Proof.
  unfold load. destruct (env "CURAQ_MCP_TOKEN") as [token | ]; [ | simpl; auto ].
  destruct (String.eqb_spec token "") as [-> | Hne]; [simpl; auto | ].
  split; [reflexivity | ]. split; [exact Hne | ].
  unfold env_or. destruct (env "CURAQ_API_URL") as [u | ].
  - destruct (String.eqb_spec u "") as [-> | Hu].
    + split; [discriminate | ]. split; [ | reflexivity ].
      intros given E Hg. injection E as <-. now elim Hg.
    + split; [exact Hu | ]. split.
      * intros given E _. now injection E.
      * intros [E | E]; [discriminate E | ]. injection E as ->. now elim Hu.
  - split; [discriminate | ]. split; [ | reflexivity ].
    intros given E. discriminate E.
Qed.

(** ** The further facts at concrete calls *)

Lemma requests_carry_token_witness :
  In ("Authorization", "Bearer secret")
     (headers {| url := "https://curaq.app/api/v1/articles/a1"; method := None;
                 headers := [("Authorization", "Bearer secret")]; body := None |})
  /\ exists rest,
       url {| url := "https://curaq.app/api/v1/articles/a1"; method := None;
              headers := [("Authorization", "Bearer secret")]; body := None |}
       = Demo.api ++ "/api/v1/articles" ++ rest.
Proof.
  apply (demo requests_carry_token Demo.offline "get_article" (Obj [("article_id", Str "a1")])).
  left. reflexivity.
Defined.

Lemma rejected_fetch_answer_witness :
  outcome Demo.offline (Demo.handler "list_articles" Undefined)
  = inr (text_result "エラーが発生しました: fetch failed").
Proof.
  apply (demo rejected_fetch_answer Demo.offline "list_articles" Undefined
           (Rejected "fetch failed") (fun _ => eq_refl)).
  vm_compute. discriminate.
Defined.

Lemma registered_call_sends_unless_invalid_witness :
  In "get_article" tool_names
  /\ requests Demo.offline
       (Demo.handler "get_article" (Obj [("article_id", Demo.no_primitive)])) = []
  /\ ((exists message,
          validation_failure "get_article" (Obj [("article_id", Demo.no_primitive)]) message)
      \/ exists e,
           outcome Demo.offline
             (Demo.handler "get_article" (Obj [("article_id", Demo.no_primitive)]))
           = inr (text_result ("エラーが発生しました: " ++ Demo.message_of e))).
Proof.
  assert (H : In "get_article" tool_names) by (simpl; tauto).
  split; [exact H | ]. split; [reflexivity | ].
  apply (proj2 (demo registered_call_sends_unless_invalid Demo.offline "get_article"
                  (Obj [("article_id", Demo.no_primitive)]) H)).
  reflexivity.
Defined.

Lemma update_request_by_action_witness :
  requests Demo.offline
    (Demo.handler "update_article_status"
       (Obj [("article_id", Str "a1"); ("action", Str "delete")]))
  = [ {| url := "https://curaq.app/api/v1/articles/a1"; method := Some "DELETE";
         headers := [("Authorization", "Bearer secret")]; body := None |} ].
Proof.
  exact (proj2 (demo update_request_by_action Demo.offline
                  (Obj [("article_id", Str "a1"); ("action", Str "delete")]) "a1"
                  eq_refl eq_refl)
           eq_refl).
Defined.

Lemma list_articles_declined_or_empty_witness :
  outcome (Demo.answer (Demo.text_response 500 "boom")) (Demo.handler "list_articles" Undefined)
  = inr (text_result "エラー (500): boom").
Proof.
  exact (proj1 (demo list_articles_declined_or_empty
                  (Demo.answer (Demo.text_response 500 "boom")) Undefined
                  (Demo.text_response 500 "boom")
                  ltac:(vm_compute; discriminate) (fun _ => eq_refl))
           eq_refl).
Defined.

Lemma list_articles_entries_witness :
  exists entries,
    map_indexed (article_entry (engine := Demo.engine)) 0 [Demo.article] = inr entries
    /\ outcome (Demo.answer Demo.listing) (Demo.handler "list_articles" Undefined)
       = inr (text_result
                ("未読記事一覧（1件）" ++ LF
                 ++ "詳細が必要な場合は get_article で記事IDを指定してください。"
                 ++ LF ++ LF ++ join (LF ++ LF) entries))
    /\ nth_error entries 0
       = Some ("[1] Rocq (7分)" ++ LF ++ "    https://example.com/post" ++ LF
               ++ "    タグ: proof, logic" ++ LF ++ "    ID: a1").
Proof.
  eexists. split; [reflexivity | ].
  split; [ | reflexivity ].
  refine (proj1 (demo list_articles_entries (Demo.answer Demo.listing) Undefined Demo.listing
                   (Obj [("articles", Arr [Demo.article])]) [Demo.article] _
                   ltac:(vm_compute; discriminate) (fun _ => eq_refl)
                   eq_refl eq_refl eq_refl ltac:(discriminate) eq_refl)).
Defined.

Lemma list_articles_missing_tags_witness :
  outcome (Demo.answer
             (Demo.json_response 200 ""
                (Obj [("articles", Arr [Demo.article; Obj [("title", Str "No tags")]])])))
    (Demo.handler "list_articles" Undefined)
  = inr (text_result
           "エラーが発生しました: Cannot read properties of undefined (reading 'join')").
Proof.
  apply (demo list_articles_missing_tags
           (Demo.answer
              (Demo.json_response 200 ""
                 (Obj [("articles", Arr [Demo.article; Obj [("title", Str "No tags")]])])))
           Undefined
           (Demo.json_response 200 ""
              (Obj [("articles", Arr [Demo.article; Obj [("title", Str "No tags")]])]))
           (Obj [("articles", Arr [Demo.article; Obj [("title", Str "No tags")]])])
           [Demo.article] [("title", Str "No tags")] []
           "No tags" "undefined" "undefined"
           ltac:(vm_compute; discriminate) (fun _ => eq_refl) eq_refl eq_refl eq_refl).
  - intros article [<- | []] i. eexists. reflexivity.
  - reflexivity.
  - reflexivity.
  - reflexivity.
  - reflexivity.
Defined.

Lemma search_limit_parameter_witness :
  map url (requests Demo.offline
             (Demo.handler "search_articles"
                (Obj [("query", Str "rocq"); ("limit", Num (Int 100))])))
  = [ "https://curaq.app/api/v1/articles/semantic-search?q=rocq&limit=30" ].
Proof.
  destruct (demo search_limit_parameter Demo.offline
              (Obj [("query", Str "rocq"); ("limit", Num (Int 100))]) "rocq"
              eq_refl eq_refl)
    as (_ & _ & _ & Hcap & _).
  apply (Hcap 100); [reflexivity | lia].
Defined.

Lemma search_empty_answer_witness :
  outcome (Demo.answer (Demo.json_response 200 "" (Obj [("articles", Arr [])])))
    (Demo.handler "search_articles" (Obj [("query", Str "rocq"); ("mode", Str "keyword")]))
  = inr (text_result "「rocq」に一致する記事が見つかりませんでした。").
Proof.
  apply (proj2 (demo search_empty_answer
                  (Demo.answer (Demo.json_response 200 "" (Obj [("articles", Arr [])])))
                  (Obj [("query", Str "rocq"); ("mode", Str "keyword")])
                  (Demo.json_response 200 "" (Obj [("articles", Arr [])]))
                  (Obj [("articles", Arr [])]) (Arr []) "rocq"
                  ltac:(vm_compute; discriminate) eq_refl (fun _ => eq_refl)
                  eq_refl eq_refl eq_refl (or_intror eq_refl)));
    [reflexivity | discriminate].
Defined.

Lemma search_results_header_witness :
  exists entries,
    map_indexed (article_entry (engine := Demo.engine)) 0 [Demo.article] = inr entries
    /\ outcome (Demo.answer Demo.listing)
         (Demo.handler "search_articles" (Obj [("query", Str "rocq")]))
       = inr (text_result
                ("セマンティック検索結果：「rocq」（1件）" ++ LF
                 ++ "詳細が必要な場合は get_article で記事IDを指定してください。"
                 ++ LF ++ LF ++ join (LF ++ LF) entries)).
Proof.
  eexists. split; [reflexivity | ].
  refine (proj1 (demo search_results_header (Demo.answer Demo.listing)
                   (Obj [("query", Str "rocq")]) Demo.listing
                   (Obj [("articles", Arr [Demo.article])]) [Demo.article] _ "rocq"
                   ltac:(vm_compute; discriminate) eq_refl (fun _ => eq_refl)
                   eq_refl eq_refl eq_refl ltac:(discriminate) eq_refl)
            (or_introl eq_refl)).
Defined.

Lemma get_article_event_lines_witness :
  exists detail,
    article_detail (engine := Demo.engine) Demo.article = inr detail
    /\ outcome (Demo.answer Demo.detail_with_events)
         (Demo.handler "get_article" (Obj [("article_id", Str "a1")]))
       = inr (text_result
                (detail ++ "**イベント履歴**:" ++ LF
                 ++ join LF ["- saved (2025-01-02)"; "- read (2025-01-03)"])).
Proof.
  eexists. split; [reflexivity | ].
  apply (demo get_article_event_lines (Demo.answer Demo.detail_with_events)
           (Obj [("article_id", Str "a1")]) Demo.detail_with_events
           (Obj [("article", Demo.article);
                 ("events", Arr [Obj [("action", Str "saved"); ("created_at", Str "2025-01-02")];
                                 Obj [("action", Str "read"); ("created_at", Str "2025-01-03")]])])
           Demo.article _
           [Obj [("action", Str "saved"); ("created_at", Str "2025-01-02")];
            Obj [("action", Str "read"); ("created_at", Str "2025-01-03")]]
           ["- saved (2025-01-02)"; "- read (2025-01-03)"] "a1"
           eq_refl eq_refl (fun _ => eq_refl) eq_refl eq_refl eq_refl eq_refl eq_refl).
  repeat constructor; try discriminate; eexists; eexists; repeat split; reflexivity.
Defined.

Lemma get_article_unreadable_body_witness :
  outcome (Demo.answer (Demo.json_response 200 "" (Obj [("message", Str "ok")])))
    (Demo.handler "get_article" (Obj [("article_id", Str "a1")]))
  = inr (text_result
           "エラーが発生しました: Cannot read properties of undefined (reading 'title')").
Proof.
  exact (proj2 (demo get_article_unreadable_body
                  (Demo.answer (Demo.json_response 200 "" (Obj [("message", Str "ok")])))
                  (Obj [("article_id", Str "a1")])
                  (Demo.json_response 200 "" (Obj [("message", Str "ok")]))
                  ltac:(vm_compute; discriminate) (fun _ => eq_refl) eq_refl)
           [("message", Str "ok")] eq_refl (or_introl eq_refl)).
Defined.

Lemma get_article_other_status_witness :
  outcome (Demo.answer (Demo.text_response 500 "boom"))
    (Demo.handler "get_article" (Obj [("article_id", Str "a1")]))
  = inr (text_result "エラー (500): boom").
Proof.
  apply (demo get_article_other_status (Demo.answer (Demo.text_response 500 "boom"))
           (Obj [("article_id", Str "a1")]) (Demo.text_response 500 "boom")
           ltac:(vm_compute; discriminate) (fun _ => eq_refl) eq_refl);
    discriminate.
Defined.

Lemma update_article_status_answer_witness :
  outcome (Demo.answer (Demo.text_response 204 ""))
    (Demo.handler "update_article_status"
       (Obj [("article_id", Str "a1"); ("action", Str "read")]))
  = inr (text_result "記事を既読にマークしました（ID: a1）").
Proof.
  exact (proj1 (proj2 (proj2 (demo update_article_status_answer
                                (Demo.answer (Demo.text_response 204 ""))
                                (Obj [("article_id", Str "a1"); ("action", Str "read")])
                                (Demo.text_response 204 "") "a1"
                                eq_refl eq_refl (or_introl eq_refl) (fun _ => eq_refl))))
           eq_refl eq_refl).
Defined.

Lemma save_declined_unparseable_witness :
  outcome (Demo.answer (Demo.text_response 400 "<html>Bad Request</html>"))
    (Demo.handler "save_article" (Obj [("url", Str "https://example.com/post")]))
  = inr (text_result "エラー (400): unknown").
Proof.
  exact (demo save_declined_unparseable
           (Demo.answer (Demo.text_response 400 "<html>Bad Request</html>"))
           (Obj [("url", Str "https://example.com/post")])
           (Demo.text_response 400 "<html>Bad Request</html>")
           (Rejected "Unexpected token")
           eq_refl (fun _ => eq_refl) eq_refl eq_refl).
Defined.

Lemma save_request_contents_witness :
  exists fields,
    requests Demo.offline
      (Demo.handler "save_article"
         (Obj [("url", Str "https://example.com/post"); ("title", Str "Rocq");
               ("folder", Str "inbox")]))
    = [ {| url := "https://curaq.app/api/v1/articles";
           method := Some "POST";
           headers := [ ("Authorization", "Bearer secret");
                        ("Content-Type", "application/json") ];
           body := Some (Obj fields) |} ]
    /\ lookup "title" fields = Str "Rocq"
    /\ has_key "folder" fields = false.
Proof.
  destruct (demo save_request_contents Demo.offline
              (Obj [("url", Str "https://example.com/post"); ("title", Str "Rocq");
                    ("folder", Str "inbox")])
              eq_refl)
    as [fields [Hreq [_ [Htitle [_ Hkeys]]]]].
  exists fields. split; [exact Hreq | ]. split; [exact (Htitle eq_refl) | ].
  destruct (has_key "folder" fields) eqn:Hfolder; [ | reflexivity ].
  destruct (Hkeys "folder" Hfolder) as [H | [H | H]]; discriminate H.
Defined.

Lemma unknown_iff_not_listed_witness :
  run Demo.offline (Demo.handler "delete_article" (Obj [("article_id", Str "a1")]))
  = ([], inr (text_result "不明なツール: delete_article")).
Proof.
  apply (proj2 (demo unknown_iff_not_listed Demo.offline "delete_article"
                  (Obj [("article_id", Str "a1")]))).
  simpl. intros H.
  repeat match goal with
         | H : _ \/ _ |- _ => destruct H as [H | H]
         end;
    try discriminate H; exact H.
Defined.

Lemma required_keys_are_checked_witness :
  requests Demo.offline
    (Demo.handler "search_articles" (Obj [("limit", Demo.no_primitive)]))
  = [].
Proof.
  apply (demo required_keys_are_checked Demo.offline tool_search_articles "query"
           (Obj [("limit", Demo.no_primitive)])).
  - simpl. tauto.
  - simpl. tauto.
  - reflexivity.
Defined.

Lemma declared_defaults_are_applied_witness :
  run Demo.offline
    (Demo.handler "search_articles" (Obj [("query", Str "rocq"); ("mode", Str "semantic")]))
  = run Demo.offline (Demo.handler "search_articles" (Obj [("query", Str "rocq")])).
Proof.
  apply (demo declared_defaults_are_applied Demo.offline tool_search_articles "mode"
           (Str "semantic") (Obj [("query", Str "rocq")])
           (Obj [("query", Str "rocq"); ("mode", Str "semantic")])).
  - simpl. tauto.
  - simpl. tauto.
  - reflexivity.
  - reflexivity.
  - intros other Hne. cbn [opt_get lookup].
    destruct (String.eqb_spec "query" other); [reflexivity | ].
    destruct (String.eqb_spec "mode" other); [subst other; now elim Hne | reflexivity].
Defined.

Lemma search_query_is_escaped_witness :
  exists escaped limit,
    "https://curaq.app/api/v1/articles/semantic-search?q=a%26b%3Dc%20%23d&limit=10"
    = search_endpoint Demo.api (or_else Undefined (Str "semantic"))
      ++ "?q=" ++ escaped ++ "&limit=" ++ number_to_string (engine := Demo.engine) limit
    /\ (forall c, In c (list_ascii_of_string escaped) ->
                  uri_unreserved c = true \/ c = "%"%char)
    /\ (forall c, In c ["&"; "="; "#"; "?"; "/"; "+"; " "]%char ->
                  ~ In c (list_ascii_of_string escaped)).
Proof.
  apply (demo search_query_is_escaped Demo.offline (Obj [("query", Str "a&b=c #d")])).
  left. reflexivity.
Defined.
